(** * Acoustic feature extraction of the awaaz backend (src/backend/app.py)

    Shallow embedding of the feature pipeline of [app.py]:
    [compute_basic_features], [compute_mfcc], [extract_praat_features] and
    the [/extract_features] route, and of its two Stream Chat routes
    [generate_stream_token] and [create_stream_channel].

    Modelling choices:
    - floating-point values are modelled by exact real numbers [R], except
      the sound's duration, which decides how many frames are sampled: it
      is a binary64 value ([spec_float]) and [np.arange(0, duration, 0.01)]
      computes its length in binary64 as numpy does;
    - a Python exception is a constructor of [exn]; fallible code returns
      [result A] and [try]/[except] is [try_except];
    - numpy/scipy ([np.fft.fft], [signal.periodogram]) form a record [Lib]
      of possibly failing primitives, with the concrete instance
      [numpy_scipy] that computes the discrete Fourier transform;
    - parselmouth/Praat forms a record [Praat] of possibly failing
      primitives, left abstract (every theorem quantifies over it);
    - the Stream Chat client forms a record [Stream] of possibly failing
      calls, left abstract as well; a chat route returns the calls it made
      and its answer, or the exception escaping it. *)

From Stdlib Require Import String.
From Stdlib Require Import List Arith Lia ZArith Reals Lra Bool.

From Stdlib Require Import Strings.Byte Strings.Ascii DecimalString.
From Stdlib Require Import Floats.SpecFloat.
Import ListNotations.

Open Scope R_scope.

(** ** Python exceptions and the error monad *)

Inductive exn : Type :=
| ValueError
| MemoryError
| OverflowError
| ZeroDivisionError
| PraatError.

Inductive result (A : Type) : Type :=
| Ok (a : A)
| Raise (e : exn).
Arguments Ok {A} a.
Arguments Raise {A} e.

Definition bind {A B : Type} (m : result A) (k : A -> result B) : result B :=
  match m with
  | Ok a => k a
  | Raise e => Raise e
  end.

Notation "x <- m ;; k" := (bind m (fun x => k))
  (at level 61, m at next level, right associativity).

(** [try: body except: handler] where the handler produces a value. *)
Definition try_except {A : Type} (m : result A) (handler : exn -> A) : A :=
  match m with
  | Ok a => a
  | Raise e => handler e
  end.

(** ** numpy helpers on real vectors *)

Definition np_sum (l : list R) : R := fold_right Rplus 0 l.

(** [np.mean]; only used on non-empty arrays by the code. *)
Definition np_mean (l : list R) : R := np_sum l / INR (length l).

(** [np.signbit]: samples are [int16 / 32768], so [-0.0] never occurs. *)
Definition signbit (v : R) : bool := if Rlt_dec v 0 then true else false.

(** [np.sum(np.abs(np.diff(np.signbit(x))))]. *)
Fixpoint count_sign_changes (x : list R) : nat :=
  match x with
  | a :: ((b :: _) as r) =>
      (if Bool.eqb (signbit a) (signbit b) then 0 else 1) + count_sign_changes r
  | _ => 0
  end.

(** Element-wise product of two numpy arrays. *)
Fixpoint mul_elems (a b : list R) : list R :=
  match a, b with
  | x :: a', y :: b' => x * y :: mul_elems a' b'
  | _, _ => []
  end.

(** ** Discrete Fourier transform *)

(** [dft_sum f y k] = sum over j of [f (k + j) y_j]. *)
Fixpoint dft_sum (f : nat -> R -> R) (y : list R) (k : nat) : R :=
  match y with
  | [] => 0
  | a :: r => f k a + dft_sum f r (S k)
  end.

Definition dft_angle (n m k : nat) : R := 2 * PI * INR m * INR k / INR n.

(** Real and imaginary part of bin [m] of the DFT of [y]. *)
Definition dft_re (y : list R) (m : nat) : R :=
  dft_sum (fun k a => a * cos (dft_angle (length y) m k)) y 0.

Definition dft_im (y : list R) (m : nat) : R :=
  - dft_sum (fun k a => a * sin (dft_angle (length y) m k)) y 0.

Definition dft_bins (y : list R) (nbins : nat) : list (R * R) :=
  map (fun m => (dft_re y m, dft_im y m)) (seq 0 nbins).

(** [np.abs] of a complex number. *)
Definition cabs (z : R * R) : R := sqrt (fst z * fst z + snd z * snd z).

(** [np.fft.fft]: raises on an empty array
    ("Invalid number of FFT data points (0)"). *)
Definition numpy_fft (x : list R) : result (list (R * R)) :=
  match x with
  | [] => Raise ValueError
  | _ => Ok (dft_bins x (length x))
  end.

(** [scipy.signal.get_window("hann", M)] (periodic form). *)
Definition hann (M : nat) : list R :=
  if (M =? 1)%nat then [1]
  else map (fun k => / 2 - / 2 * cos (2 * PI * INR k / INR M)) (seq 0 M).

(** [scipy.signal.periodogram(x, fs, scaling="spectrum", window="hann")]:
    constant detrend, Hann window, one-sided power spectrum scaled by
    [1 / (sum w)^2], non-DC (and non-Nyquist) bins doubled. The frequencies
    are [rfftfreq(n, 1/fs)], so an integer [fs = 0] raises
    [ZeroDivisionError]. *)
Definition scipy_periodogram (x : list R) (sample_rate : Z)
  : result (list R * list R) :=
  if (sample_rate =? 0)%Z then Raise ZeroDivisionError else
  let fs := IZR sample_rate in
  let n := length x in
  let w := hann n in
  let mu := np_mean x in
  let y := mul_elems (map (fun v => v - mu) x) w in
  let nb := (n / 2 + 1)%nat in
  let scale := / (np_sum w * np_sum w) in
  let freqs := map (fun m => INR m * fs / INR n) (seq 0 nb) in
  let psd :=
    map (fun m =>
           let z := (dft_re y m, dft_im y m) in
           let p := (fst z * fst z + snd z * snd z) * scale in
           if ((m =? 0) || (Nat.even n && (m =? n / 2)))%bool then p else 2 * p)
        (seq 0 nb) in
  Ok (freqs, psd).

(** The numerical library used by the feature code. *)
Record Lib : Type := {
  periodogram : list R -> Z -> result (list R * list R);
  np_fft : list R -> result (list (R * R))
}.

Definition numpy_scipy : Lib := {|
  periodogram := scipy_periodogram;
  np_fft := numpy_fft
|}.

(** ** compute_basic_features (app.py lines 31-57) *)

Record basic_feats : Type := {
  rms : R;
  zcr : R;
  spectralCentroid : R;
  spectralFlatness : R
}.

Definition psd_floor : R := 1e-20.

Definition compute_basic_features (lib : Lib) (x : list R) (sample_rate : Z)
  : result basic_feats :=
  let rms_v :=
    if (0 <? length x)%nat then sqrt (np_mean (map (fun v => v * v) x)) else 0 in
  let zero_crossings := count_sign_changes x in
  let zcr_v :=
    if (1 <? length x)%nat then INR zero_crossings / INR (length x - 1) else 0 in
  if (length x =? 0)%nat then
    Ok {| rms := 0; zcr := 0; spectralCentroid := 0; spectralFlatness := 0 |}
  else
    fp <- periodogram lib x sample_rate ;;
    let freqs := fst fp in
    let psd := map (Rmax psd_floor) (snd fp) in
    let centroid :=
      if Rgt_dec (np_sum psd) 0 then np_sum (mul_elems freqs psd) / np_sum psd
      else 0 in
    let geom_mean := exp (np_mean (map ln psd)) in
    let arith_mean := if (0 <? length psd)%nat then np_mean psd else 0 in
    let flatness := if Rgt_dec arith_mean 0 then geom_mean / arith_mean else 0 in
    Ok {| rms := rms_v; zcr := zcr_v;
          spectralCentroid := centroid; spectralFlatness := flatness |}.

(** ** compute_mfcc (app.py lines 196-214) *)

(** [magnitude[start:end]]. *)
Definition slice {A : Type} (l : list A) (start stop : nat) : list A :=
  firstn (stop - start) (skipn start l).

(** [int((i * len(magnitude)) / num_coeffs)]: for array sizes far below
    [2^50] the float quotient truncates to the integer quotient. *)
Definition band_start (len num_coeffs i : nat) : nat := (i * len) / num_coeffs.
Definition band_end (len num_coeffs i : nat) : nat := ((i + 1) * len) / num_coeffs.

Definition band_coeff (magnitude : list R) (num_coeffs i : nat) : R :=
  let start := band_start (length magnitude) num_coeffs i in
  let stop := band_end (length magnitude) num_coeffs i in
  if (start <? stop)%nat then np_mean (slice magnitude start stop) else 0.

(** [np.abs(fft[:len(fft)//2])]. *)
Definition half_magnitude (fft : list (R * R)) : list R :=
  map cabs (firstn (length fft / 2) fft).

Definition compute_mfcc (lib : Lib) (samples : list R) (sample_rate : Z)
  (num_coeffs : nat) : list R :=
  try_except
    (fft <- np_fft lib samples ;;
     let magnitude := half_magnitude fft in
     Ok (map (band_coeff magnitude num_coeffs) (seq 0 num_coeffs)))
    (fun _ => repeat 0 num_coeffs).

(** ** extract_praat_features (app.py lines 60-193) *)

(** A Praat PointProcess, through the answers of the queries the code
    makes on it: "Get number of points", "Get jitter (local)" and
    "Get shimmer (local)" over [0, duration]. *)
Record PointProcess : Type := {
  pp_number_of_points : result nat;
  pp_jitter_local : R -> result R;
  pp_shimmer_local : R -> result R
}.

(** The parselmouth calls made by the code, each of which may raise.
    [pm_sound] is [parselmouth.Sound(samples, sampling_frequency)] followed
    by [sound.duration], the binary64 duration of the sound. A Pitch object
    is [get_value_at_time] ([None] for an unvoiced or undefined frame); a
    Formant object is [get_value_at_time] indexed by the formant number;
    [None] at the object level is a falsy object. *)
Record Praat : Type := {
  pm_sound : list R -> Z -> result spec_float;
  pm_to_pitch_ac : list R -> Z -> result (option (R -> result (option R)));
  pm_to_formant_burg :
    list R -> Z -> result (option (nat -> R -> result (option R)));
  pm_to_point_process : list R -> Z -> result (option PointProcess)
}.

Record praat_feats : Type := {
  f0_mean : R;
  f0_range : R;
  jitter : R;
  shimmer : R;
  f1 : R;
  f2 : R;
  speech_rate : R
}.

Definition praat_defaults : praat_feats := {|
  f0_mean := 0; f0_range := 0; jitter := 0; shimmer := 0;
  f1 := 0; f2 := 0; speech_rate := 0 |}.

(** *** binary64 arithmetic for the frame times *)

Definition f64_of_Z (z : Z) : spec_float := binary_normalize 53 1024 z 0 false.
Definition f64_div : spec_float -> spec_float -> spec_float := SFdiv 53 1024.

(** The literal [0.01]: 5764607523034235 * 2^-59. *)
Definition f64_0_01 : spec_float := S754_finite false 5764607523034235 (-59).

(** The real value of a finite binary64 number. A Sound's duration is
    always finite; the non-finite values are sent to 0. *)
Definition sf_value (f : spec_float) : R :=
  match f with
  | S754_finite s m e => (if s then -1 else 1) * IZR (Zpos m) * powerRZ 2 e
  | _ => 0
  end.

(** [math.ceil] of a finite binary64 number. *)
Definition sf_ceil (f : spec_float) : Z :=
  match f with
  | S754_finite s m e =>
      let v := if s then Zneg m else Zpos m in
      if (0 <=? e)%Z then (v * 2 ^ e)%Z else (- ((- v) / 2 ^ (- e)))%Z
  | _ => 0%Z
  end.

(** Length of [np.arange(0, stop, 0.01)]: [ceil((stop - 0) / 0.01)] in
    binary64, and 0 when it is not positive; numpy raises [ValueError] on
    NaN and [OverflowError] outside the range of [intp] (infinities
    included). Allocating the array is taken to succeed. *)
Definition arange_length (stop : spec_float) : result nat :=
  match f64_div stop f64_0_01 with
  | S754_nan => Raise ValueError
  | S754_infinity _ => Raise OverflowError
  | q =>
      let c := sf_ceil q in
      if ((- 2 ^ 63 <=? c) && (c <=? 2 ^ 63))%Z then Ok (Z.to_nat c)
      else Raise OverflowError
  end.

(** The times of [np.arange(0, duration, 0.01)]. *)
Definition arange_times (duration : spec_float) : result (list R) :=
  n <- arange_length duration ;;
  Ok (map (fun k => INR k * 0.01) (seq 0 n)).

(** [if v is not None and v > 0: values.append(v)] *)
Definition keep_positive (v : option R) (rest : list R) : list R :=
  match v with
  | Some f => if Rgt_dec f 0 then f :: rest else rest
  | None => rest
  end.

(** [for t in times: v = get(t); if v is not None and v > 0: values.append(v)] *)
Fixpoint collect_positive (get : R -> result (option R)) (ts : list R)
  : result (list R) :=
  match ts with
  | [] => Ok []
  | t :: ts' =>
      v <- get t ;;
      rest <- collect_positive get ts' ;;
      Ok (keep_positive v rest)
  end.

(** The formant loop: F1 then F2 at each time. *)
Fixpoint collect_formants (get : nat -> R -> result (option R)) (ts : list R)
  : result (list R * list R) :=
  match ts with
  | [] => Ok ([], [])
  | t :: ts' =>
      v1 <- get 1%nat t ;;
      v2 <- get 2%nat t ;;
      rest <- collect_formants get ts' ;;
      Ok (keep_positive v1 (fst rest), keep_positive v2 (snd rest))
  end.

Definition list_min (a : R) (l : list R) : R := fold_left Rmin l a.
Definition list_max (a : R) (l : list R) : R := fold_left Rmax l a.

(** Python's [min(a, b)] keeps [a] unless [b < a]; [max(a, b)] keeps [a]
    unless [b > a]. *)
Definition py_min (a b : R) : R := if Rlt_dec b a then b else a.
Definition py_max (a b : R) : R := if Rgt_dec b a then b else a.

(** app.py lines 160-171. *)
Definition speech_rate_of (voiced_frames : nat) (duration : R) : R :=
  if (0 <? voiced_frames)%nat then
    let voiced_duration := INR voiced_frames * 0.01 in
    let words_estimate := voiced_duration / 0.5 in
    let sr := if Rgt_dec duration 0 then words_estimate / duration * 60 else 0 in
    py_max 80 (py_min 200 sr)
  else 0.

(** Inner [try] of lines 134-158: jitter and shimmer. *)
Definition jitter_shimmer (pm : Praat) (samples : list R) (sample_rate : Z)
  (duration : R) : R * R :=
  try_except
    (point_process <- pm_to_point_process pm samples sample_rate ;;
     match point_process with
     | None => Ok (0, 0)
     | Some pp =>
         n_pulses <- pp_number_of_points pp ;;
         if (1 <? n_pulses)%nat then
           let j := try_except (v <- pp_jitter_local pp duration ;; Ok (v * 100))
                      (fun _ => 0) in
           let s := try_except (v <- pp_shimmer_local pp duration ;; Ok (v * 100))
                      (fun _ => 0) in
           Ok (j, s)
         else Ok (0, 0)
     end)
    (fun _ => (0, 0)).

(** Pitch stage (lines 82-101): the voiced F0 values sampled every 10 ms;
    the frame times are only computed [if pitch]. *)
Definition f0_values_of (pitch : option (R -> result (option R)))
  (duration : spec_float) : result (list R) :=
  match pitch with
  | Some p => ts <- arange_times duration ;; collect_positive p ts
  | None => Ok []
  end.

(** Formant stage (lines 115-127): the positive F1 and F2 values. *)
Definition formant_values_of (formant : option (nat -> R -> result (option R)))
  (duration : spec_float) : result (list R * list R) :=
  match formant with
  | Some f => ts <- arange_times duration ;; collect_formants f ts
  | None => Ok ([], [])
  end.

(** [float(np.mean(values))] if [len(values) > 0], else [0.0]. *)
Definition mean_or_zero (l : list R) : R :=
  match l with
  | [] => 0
  | _ => np_mean l
  end.

Definition f0_stats (f0_values : list R) : R * R :=
  match f0_values with
  | [] => (0, 0)
  | v :: vs => (np_mean f0_values, list_max v vs - list_min v vs)
  end.

(** The body of the outer [try] (lines 62-181). *)
Definition praat_body (pm : Praat) (samples : list R) (sample_rate : Z)
  : result praat_feats :=
  d <- pm_sound pm samples sample_rate ;;
  let duration := sf_value d in
  pitch <- pm_to_pitch_ac pm samples sample_rate ;;
  f0_values <- f0_values_of pitch d ;;
  let f0 := f0_stats f0_values in
  formant <- pm_to_formant_burg pm samples sample_rate ;;
  f12 <- formant_values_of formant d ;;
  let f1_mean := mean_or_zero (fst f12) in
  let f2_mean := mean_or_zero (snd f12) in
  let js := jitter_shimmer pm samples sample_rate duration in
  Ok {| f0_mean := fst f0; f0_range := snd f0;
        jitter := fst js; shimmer := snd js;
        f1 := f1_mean; f2 := f2_mean;
        speech_rate := speech_rate_of (length f0_values) duration |}.

Definition extract_praat_features (pm : Praat) (samples : list R)
  (sample_rate : Z) : praat_feats :=
  try_except (praat_body pm samples sample_rate) (fun _ => praat_defaults).

(** Lines printed by [extract_praat_features] on stdout. *)
Inductive log_line : Type :=
| LogPraatError (e : exn)
| LogJitterWarning (e : exn)
| LogFeatures (b : basic_feats) (m : list R) (p : praat_feats) (n : nat)
| LogRouteError (e : exn).

(** What [extract_praat_features] prints: the warning of the inner handler
    (line 156) and the error of the outer handler (line 183). *)
Definition praat_log (pm : Praat) (samples : list R) (sample_rate : Z)
  : list log_line :=
  let inner :=
    match pm_to_point_process pm samples sample_rate with
    | Raise e => [LogJitterWarning e]
    | Ok (Some pp) =>
        match pp_number_of_points pp with
        | Raise e => [LogJitterWarning e]
        | Ok _ => []
        end
    | Ok None => []
    end in
  match praat_body pm samples sample_rate with
  | Ok _ => inner
  | Raise e =>
      (* the outer handler fires before the inner [try] is reached *)
      [LogPraatError e]
  end.

(** ** The [/extract_features] route (app.py lines 296-364) *)

(** [np.frombuffer(audio_data, dtype=np.int16)], little-endian. *)
Definition int16_le (lo hi : Byte.byte) : Z :=
  let u := (Z.of_nat (Byte.to_nat lo) + 256 * Z.of_nat (Byte.to_nat hi))%Z in
  if (32768 <=? u)%Z then (u - 65536)%Z else u.

(** Raises [ValueError] ("buffer size must be a multiple of element
    size") on an odd number of bytes. *)
Fixpoint frombuffer_int16 (b : list Byte.byte) : result (list Z) :=
  match b with
  | [] => Ok []
  | [_] => Raise ValueError
  | lo :: hi :: r =>
      rest <- frombuffer_int16 r ;;
      Ok (int16_le lo hi :: rest)
  end.

Record feature_record : Type := {
  fr_basic : basic_feats;
  fr_mfcc : list R;
  fr_praat : praat_feats
}.

(** HTTP responses: 200 with the JSON record, 400 with a message, 500
    with the description of the exception. *)
Inductive response : Type :=
| Resp200 (r : feature_record)
| Resp400 (msg : String.string)
| Resp500 (e : exn).

(** The process state the route can touch: its standard output. *)
Record world : Type := { stdout : list log_line }.

Definition print (w : world) (l : list log_line) : world :=
  {| stdout := stdout w ++ l |}.

Definition header_size : nat := 44.

(** The body of the [try] of lines 305-359. *)
Definition extract_features_body (lib : Lib) (pm : Praat) (data : list Byte.byte)
  : result (feature_record * list log_line) :=
  let audio_data := skipn header_size data in
  ints <- frombuffer_int16 audio_data ;;
  let samples := map (fun s => IZR s / 32768) ints in
  let sample_rate := 16000%Z in
  basic <- compute_basic_features lib samples sample_rate ;;
  let mfcc := compute_mfcc lib samples sample_rate 13 in
  let praat_features := extract_praat_features pm samples sample_rate in
  Ok ({| fr_basic := basic; fr_mfcc := mfcc; fr_praat := praat_features |},
      praat_log pm samples sample_rate
        ++ [LogFeatures basic mfcc praat_features (length samples)]).

(** [request.files.get("file")] is [file]; [None] when the field is
    missing. *)
Definition extract_features (lib : Lib) (pm : Praat) (w : world)
  (file : option (list Byte.byte)) : world * response :=
  match file with
  | None => (w, Resp400 "file field missing"%string)
  | Some [] => (w, Resp400 "empty file"%string)
  | Some data =>
      match extract_features_body lib pm data with
      | Ok (r, out) => (print w out, Resp200 r)
      | Raise e => (print w [LogRouteError e], Resp500 e)
      end
  end.

(** ** Concrete backends used as inputs of the examples below *)

(** Duration of a Sound of [n] samples at [fs] Hz in the example
    backends: [n / fs] rounded to binary64. *)
Definition sound_duration (samples : list R) (fs : Z) : spec_float :=
  f64_div (f64_of_Z (Z.of_nat (length samples))) (f64_of_Z fs).

(** parselmouth refusing the sound (e.g. an empty one): every call raises. *)
Definition praat_unavailable : Praat := {|
  pm_sound := fun _ _ => Raise PraatError;
  pm_to_pitch_ac := fun _ _ => Raise PraatError;
  pm_to_formant_burg := fun _ _ => Raise PraatError;
  pm_to_point_process := fun _ _ => Raise PraatError
|}.

(** A clip on which the autocorrelation pitch track is unvoiced at every
    sampled time and no formant or pulse is found. *)
Definition praat_unvoiced : Praat := {|
  pm_sound := fun x fs => Ok (sound_duration x fs);
  pm_to_pitch_ac := fun _ _ => Ok (Some (fun _ => Ok None));
  pm_to_formant_burg := fun _ _ => Ok None;
  pm_to_point_process := fun _ _ => Ok None
|}.

(** A clip whose autocorrelation pitch track is unvoiced at every sampled
    time while the cross-correlation pulse detection of
    "To PointProcess (periodic, cc)" finds 3 pulses with a local jitter of
    0.01 and a local shimmer of 0.02. *)
Definition praat_pulses_only : Praat := {|
  pm_sound := fun x fs => Ok (sound_duration x fs);
  pm_to_pitch_ac := fun _ _ => Ok (Some (fun _ => Ok None));
  pm_to_formant_burg := fun _ _ => Ok None;
  pm_to_point_process := fun _ _ =>
    Ok (Some {| pp_number_of_points := Ok 3%nat;
                pp_jitter_local := fun _ => Ok (1 / 100);
                pp_shimmer_local := fun _ => Ok (2 / 100) |})
|}.

(** A clip voiced at 100 Hz at every sampled time. *)
Definition praat_voiced_100 : Praat := {|
  pm_sound := fun x fs => Ok (sound_duration x fs);
  pm_to_pitch_ac := fun _ _ => Ok (Some (fun _ => Ok (Some 100)));
  pm_to_formant_burg := fun _ _ => Ok None;
  pm_to_point_process := fun _ _ => Ok None
|}.

(** A clip with 3 detected pulses on which the jitter query raises while
    the shimmer query answers 0.02. *)
Definition praat_jitter_fails : Praat := {|
  pm_sound := fun x fs => Ok (sound_duration x fs);
  pm_to_pitch_ac := fun _ _ => Ok None;
  pm_to_formant_burg := fun _ _ => Ok None;
  pm_to_point_process := fun _ _ =>
    Ok (Some {| pp_number_of_points := Ok 3%nat;
                pp_jitter_local := fun _ => Raise PraatError;
                pp_shimmer_local := fun _ => Ok (2 / 100) |})
|}.

(** scipy's periodogram failing (e.g. on a [MemoryError]). *)
Definition lib_periodogram_fails : Lib := {|
  periodogram := fun _ _ => Raise MemoryError;
  np_fft := numpy_fft
|}.

Definition empty_world : world := {| stdout := [] |}.

Definition basic_zero : basic_feats :=
  {| rms := 0; zcr := 0; spectralCentroid := 0; spectralFlatness := 0 |}.

(** [samples = np.frombuffer(...).astype(np.float32) / 32768.0] *)
Definition decode_samples (ints : list Z) : list R :=
  map (fun s => IZR s / 32768) ints.

(** ** Reference encoder of 16-bit PCM *)

(** A byte of value [n], [n] taken modulo 256. *)
Definition byte_of_Z (n : Z) : Byte.byte :=
  match Byte.of_nat (Z.to_nat (n mod 256)) with
  | Some b => b
  | None => Byte.x00
  end.

(** Little-endian two's-complement bytes of a 16-bit sample, as written
    by [np.ndarray.astype(np.int16).tobytes()]. *)
Definition int16_to_le_bytes (v : Z) : list Byte.byte :=
  let u := (v mod 65536)%Z in
  [byte_of_Z u; byte_of_Z (u / 256)].

Fixpoint encode_int16s (l : list Z) : list Byte.byte :=
  match l with
  | [] => []
  | v :: r => int16_to_le_bytes v ++ encode_int16s r
  end.

(** ** The Stream Chat routes (app.py lines 222-293) *)

Open Scope string_scope.

(** A JSON value as returned by [request.get_json()]. An object is its
    list of members in source order; as with [json.loads], a repeated key
    keeps its last value. Numbers with a fraction or an exponent (Python
    floats) are not modelled. *)
#[warnings="-register-all"]
Inductive json : Type :=
| JNull
| JBool (b : bool)
| JInt (z : Z)
| JStr (s : string)
| JArr (l : list json)
| JObj (kv : list (string * json)).

(** Python truthiness. *)
Definition truthy (v : json) : bool :=
  match v with
  | JNull => false
  | JBool b => b
  | JInt z => negb (z =? 0)%Z
  | JStr s => negb (String.eqb s "")
  | JArr l => match l with [] => false | _ => true end
  | JObj kv => match kv with [] => false | _ => true end
  end.

(** [d[k]] on a dict built by [json.loads]: the last member named [k]. *)
Definition dict_lookup (k : string) (kv : list (string * json)) : option json :=
  fold_left (fun acc kv' => if String.eqb k (fst kv') then Some (snd kv') else acc)
    kv None.

Definition type_name (v : json) : string :=
  match v with
  | JNull => "NoneType"
  | JBool _ => "bool"
  | JInt _ => "int"
  | JStr _ => "str"
  | JArr _ => "list"
  | JObj _ => "dict"
  end.

(** Exceptions raised in the chat routes; the argument is [str(e)]. *)
Inductive chat_exn : Type :=
| StreamAPIError (msg : string)
| TypeError (msg : string)
| KeyError (msg : string)
| AttributeError (msg : string)
| BadRequest (msg : string)
| UnboundLocalError (msg : string).

Definition exn_str (e : chat_exn) : string :=
  match e with
  | StreamAPIError m | TypeError m | KeyError m | AttributeError m
  | BadRequest m | UnboundLocalError m => m
  end.

Inductive py_result (A : Type) : Type :=
| POk (a : A)
| PRaise (e : chat_exn).
Arguments POk {A} a.
Arguments PRaise {A} e.

(** [k in data] for a string [k]. *)
Definition py_in_str (k : string) (data : json) : py_result bool :=
  match data with
  | JObj kv => POk (match dict_lookup k kv with Some _ => true | None => false end)
  | JArr l =>
      POk (existsb (fun v => match v with JStr s => String.eqb s k | _ => false end) l)
  | JStr s =>
      POk ((fix contains (hay : string) : bool :=
              String.prefix k hay ||
              match hay with
              | EmptyString => false
              | String _ r => contains r
              end) s)
  | JInt _ | JBool _ | JNull =>
      PRaise (TypeError ("argument of type '" ++ type_name data ++ "' is not iterable"))
  end.

(** [data[k]] for a string [k]. *)
Definition py_getitem_str (data : json) (k : string) : py_result json :=
  match data with
  | JObj kv =>
      match dict_lookup k kv with
      | Some v => POk v
      | None => PRaise (KeyError ("'" ++ k ++ "'"))
      end
  | JArr _ => PRaise (TypeError "list indices must be integers or slices, not str")
  | JStr _ => PRaise (TypeError "string indices must be integers, not 'str'")
  | JInt _ | JBool _ | JNull =>
      PRaise (TypeError ("'" ++ type_name data ++ "' object is not subscriptable"))
  end.

(** [data.get(k, default)]: only a dict has a [get] method. *)
Definition py_get (data : json) (k : string) (default : json) : py_result json :=
  match data with
  | JObj kv =>
      match dict_lookup k kv with
      | Some v => POk v
      | None => POk default
      end
  | _ => PRaise (AttributeError ("'" ++ type_name data ++ "' object has no attribute 'get'"))
  end.

(** [str.lower] restricted to ASCII letters. Applied to the UTF-8 bytes of
    a message it decides [needle in s.lower()] exactly for the ASCII
    needle "already exists": no other character lowercases to a single
    one of its letters. *)
Definition ascii_lower (c : Ascii.ascii) : Ascii.ascii :=
  let n := Ascii.nat_of_ascii c in
  if ((65 <=? n) && (n <=? 90))%nat then Ascii.ascii_of_nat (n + 32) else c.

Fixpoint lower (s : string) : string :=
  match s with
  | EmptyString => EmptyString
  | String c r => String (ascii_lower c) (lower r)
  end.

(** [needle in hay] on strings. *)
Fixpoint str_contains (needle hay : string) : bool :=
  String.prefix needle hay ||
  match hay with
  | EmptyString => false
  | String _ r => str_contains needle r
  end.

(** The calls the routes make on [stream_client], each of which may raise
    a [StreamAPIError]: [update_user], [create_token] and
    [channel(type, id, data).create(user_id)]. *)
Record Stream : Type := {
  update_user : json -> py_result unit;
  create_token : json -> py_result string;
  channel_create : string -> string -> json -> json -> py_result unit
}.

Inductive stream_call : Type :=
| UpdateUser (user : json)
| CreateToken (user_id : json)
| ChannelCreate (channel_type channel_id : string) (data : json) (user_id : json).

(** [jsonify(body), status]. *)
Record chat_response : Type := {
  status : Z;
  body : json
}.

(** A route run: the Stream calls made, in order, and either the response
    or an exception escaping the route (Flask then answers with its own
    500 page). *)
Definition M (A : Type) : Type := list stream_call * py_result A.

Definition ret {A : Type} (a : A) : M A := ([], POk a).

Definition lift {A : Type} (r : py_result A) : M A := ([], r).

Definition call {A : Type} (c : stream_call) (r : py_result A) : M A := ([c], r).

Definition mbind {A B : Type} (m : M A) (k : A -> M B) : M B :=
  match m with
  | (t, POk a) => let (t', r) := k a in (app t t', r)
  | (t, PRaise e) => (t, PRaise e)
  end.

(** [try: m except Exception as e: handler(e)]. *)
Definition try_catch {A : Type} (m : M A) (handler : chat_exn -> M A) : M A :=
  match m with
  | (t, POk a) => (t, POk a)
  | (t, PRaise e) => let (t', r) := handler e in (app t t', r)
  end.

Definition error_body (msg : string) : json := JObj [("error", JStr msg)].

Section ChatRoutes.

(** [str] of a JSON array or object is Python's [repr] of the list or
    dict; it is left abstract. *)
Variable container_repr : json -> string.

(** [str(v)], which is also what [f"{v}"] prints. *)
Definition py_str (v : json) : string :=
  match v with
  | JNull => "None"
  | JBool true => "True"
  | JBool false => "False"
  | JInt z => DecimalString.NilZero.string_of_int (Z.to_int z)
  | JStr s => s
  | JArr _ | JObj _ => container_repr v
  end.

(** [userId == "9999"]: only the string compares equal. *)
Definition is_teacher_id (v : json) : bool :=
  match v with
  | JStr s => String.eqb s "9999"
  | _ => false
  end.

Definition token_user (userId userName : json) : json :=
  JObj [("id", userId); ("name", userName);
        ("role", JStr (if is_teacher_id userId then "admin" else "user"))].

(** app.py lines 222-251; [req] is the outcome of [request.get_json()]. *)
Definition generate_stream_token (st : Stream) (req : py_result json)
  : M chat_response :=
  try_catch
    (mbind (lift req) (fun data =>
     if negb (truthy data) then
       ret {| status := 400; body := error_body "userId is required" |}
     else
     mbind (lift (py_in_str "userId" data)) (fun has_user =>
     if negb has_user then
       ret {| status := 400; body := error_body "userId is required" |}
     else
     mbind (lift (py_getitem_str data "userId")) (fun userId =>
     mbind (lift (py_get data "userName" (JStr ("User " ++ py_str userId))))
       (fun userName =>
     let user := token_user userId userName in
     mbind (call (UpdateUser user) (update_user st user)) (fun _ =>
     mbind (call (CreateToken userId) (create_token st userId)) (fun token =>
     ret {| status := 200;
            body := JObj [("token", JStr token); ("userId", userId);
                          ("userName", userName)] |})))))))
    (fun e => ret {| status := 500; body := error_body (exn_str e) |}).

Definition channel_name (teacher_id student_id : json) : string :=
  "teacher-" ++ py_str teacher_id ++ "-student-" ++ py_str student_id.

Definition teacher_user (teacher_id : json) : json :=
  JObj [("id", teacher_id); ("name", JStr ("Teacher " ++ py_str teacher_id));
        ("role", JStr "admin")].

Definition student_user (student_id : json) : json :=
  JObj [("id", student_id); ("name", JStr ("Student " ++ py_str student_id))].

Definition channel_data (teacher_id student_id : json) : json :=
  JObj [("members", JArr [teacher_id; student_id]); ("created_by_id", teacher_id)].

(** The handler of lines 282-293. [data] is [None] when
    [request.get_json()] raised, leaving the local unbound. *)
Definition channel_handler (data : option json) (e : chat_exn) : M chat_response :=
  if str_contains "already exists" (lower (exn_str e)) then
    match data with
    | None =>
        lift (PRaise (UnboundLocalError
          "cannot access local variable 'data' where it is not associated with a value"))
    | Some d =>
        mbind (lift (py_get d "teacherId" JNull)) (fun t =>
        mbind (lift (py_get d "studentId" JNull)) (fun s =>
        ret {| status := 200;
               body := JObj [("channelId", JStr (channel_name t s));
                             ("success", JBool true); ("existed", JBool true)] |}))
    end
  else ret {| status := 500; body := error_body (exn_str e) |}.

(** The body of the [try] of lines 256-281, once [data] is bound. *)
Definition channel_body (st : Stream) (data : json) : M chat_response :=
  if negb (truthy data) then
    ret {| status := 400; body := error_body "Request body required" |}
  else
  mbind (lift (py_get data "teacherId" JNull)) (fun teacher_id =>
  mbind (lift (py_get data "studentId" JNull)) (fun student_id =>
  if negb (truthy teacher_id) || negb (truthy student_id) then
    ret {| status := 400; body := error_body "teacherId and studentId are required" |}
  else
  let channel_id := channel_name teacher_id student_id in
  mbind (call (UpdateUser (teacher_user teacher_id))
              (update_user st (teacher_user teacher_id))) (fun _ =>
  mbind (call (UpdateUser (student_user student_id))
              (update_user st (student_user student_id))) (fun _ =>
  let cdata := channel_data teacher_id student_id in
  mbind (call (ChannelCreate "messaging" channel_id cdata teacher_id)
              (channel_create st "messaging" channel_id cdata teacher_id)) (fun _ =>
  ret {| status := 200;
         body := JObj [("channelId", JStr channel_id); ("success", JBool true)] |}))))).

(** app.py lines 254-293. *)
Definition create_stream_channel (st : Stream) (req : py_result json)
  : M chat_response :=
  match req with
  | PRaise e => channel_handler None e
  | POk data => try_catch (channel_body st data) (channel_handler (Some data))
  end.

End ChatRoutes.


(** Concrete Stream backends used as inputs of the examples below. *)
Definition stream_ok : Stream := {|
  update_user := fun _ => POk tt;
  create_token := fun _ => POk "token";
  channel_create := fun _ _ _ _ => POk tt
|}.

(** Stream unreachable: every call raises. *)
Definition stream_down : Stream := {|
  update_user := fun _ => PRaise (StreamAPIError "Connection refused");
  create_token := fun _ => PRaise (StreamAPIError "Connection refused");
  channel_create := fun _ _ _ _ => PRaise (StreamAPIError "Connection refused")
|}.

(** Stream refusing the user update with an error mentioning an existing
    user. *)
Definition stream_user_exists : Stream := {|
  update_user := fun _ =>
    PRaise (StreamAPIError "StreamChat error code 4: UpdateUsers failed: user ALREADY EXISTS");
  create_token := fun _ => POk "token";
  channel_create := fun _ _ _ _ => POk tt
|}.

(** A rendering of containers for the examples (never used on them). *)
Definition empty_repr (v : json) : string := "".

Close Scope string_scope.

(** * Properties *)

(** ** Decoding *)

Lemma frombuffer_int16_odd (l : list Byte.byte) :
  Nat.odd (length l) = true -> frombuffer_int16 l = Raise ValueError.
Proof.
  revert l; fix IH 1.
  intros [|a [|b l]] H; simpl in *.
  - discriminate.
  - reflexivity.
  - rewrite Nat.odd_succ_succ in H. rewrite (IH l H). reflexivity.
Qed.

Lemma extract_features_body_decode lib pm data :
  extract_features_body lib pm data =
  (ints <- frombuffer_int16 (skipn header_size data) ;;
   let samples := decode_samples ints in
   basic <- compute_basic_features lib samples 16000 ;;
   let mfcc := compute_mfcc lib samples 16000 13 in
   let praat_features := extract_praat_features pm samples 16000 in
   Ok ({| fr_basic := basic; fr_mfcc := mfcc; fr_praat := praat_features |},
       praat_log pm samples 16000
         ++ [LogFeatures basic mfcc praat_features (length samples)])).
Proof. reflexivity. Qed.

(** ** C1 *)

(** Claim C1 (counterexample): a one-byte upload is not rejected as empty
    input; the route answers 200 with a feature record. *)
Lemma C1_one_byte_upload_accepted :
  exists r, snd (extract_features numpy_scipy praat_unavailable empty_world
                   (Some [Byte.x00])) = Resp200 r.
Proof. eexists. reflexivity. Qed.

(** Claim C1 (amended): only a zero-byte upload is rejected (400
    "empty file"); a non-empty upload of at most 44 bytes decodes to no
    sample and the route answers 200 with rms, zcr, spectralCentroid and
    spectralFlatness 0, mfcc thirteen zeros (np.fft.fft raises on the empty
    array and the fallback applies) and the Praat features computed on the
    empty sound. *)
Theorem C1_short_upload_record (pm : Praat) (w : world)
  (data : list Byte.byte) :
  data <> [] -> (length data <= header_size)%nat ->
  snd (extract_features numpy_scipy pm w (Some [])) = Resp400 "empty file"%string /\
  snd (extract_features numpy_scipy pm w (Some data)) =
    Resp200 {| fr_basic := basic_zero; fr_mfcc := repeat 0 13;
               fr_praat := extract_praat_features pm [] 16000 |}.
Proof.
  intros Hne Hlen. split; [reflexivity|].
  destruct data as [|b data']; [contradiction|].
  unfold extract_features.
  rewrite extract_features_body_decode.
  rewrite (skipn_all2 (b :: data') Hlen).
  reflexivity.
Qed.

Lemma C1_short_upload_record_witness :
  [Byte.x00] <> [] /\ (length [Byte.x00] <= header_size)%nat /\
  snd (extract_features numpy_scipy praat_unavailable empty_world (Some [])) =
    Resp400 "empty file"%string /\
  snd (extract_features numpy_scipy praat_unavailable empty_world
         (Some [Byte.x00])) =
    Resp200 {| fr_basic := basic_zero; fr_mfcc := repeat 0 13;
               fr_praat := extract_praat_features praat_unavailable [] 16000 |}.
Proof.
  assert (H1 : [Byte.x00] <> []) by discriminate.
  assert (H2 : (length [Byte.x00] <= header_size)%nat) by (simpl; unfold header_size; lia).
  split; [exact H1|]. split; [exact H2|].
  exact (C1_short_upload_record praat_unavailable empty_world [Byte.x00] H1 H2).
Defined.

(** ** C10 *)

(** Claim C10: a non-empty upload whose part after the 44-byte header has
    an odd number of bytes makes [np.frombuffer] raise; the route's handler
    answers 500 and prints the error, with no feature record. *)
Theorem C10_odd_payload_server_error (lib : Lib) (pm : Praat) (w : world)
  (data : list Byte.byte) :
  Nat.odd (length data - header_size) = true ->
  extract_features lib pm w (Some data) =
    (print w [LogRouteError ValueError], Resp500 ValueError).
Proof.
  intros Hodd.
  destruct data as [|b data'].
  - simpl in Hodd. discriminate.
  - unfold extract_features.
    rewrite extract_features_body_decode.
    rewrite frombuffer_int16_odd; [reflexivity|].
    rewrite length_skipn. exact Hodd.
Qed.

Lemma C10_odd_payload_server_error_witness :
  Nat.odd (length (repeat Byte.x00 45) - header_size) = true /\
  extract_features numpy_scipy praat_unavailable empty_world
    (Some (repeat Byte.x00 45)) =
    (print empty_world [LogRouteError ValueError], Resp500 ValueError).
Proof.
  assert (H : Nat.odd (length (repeat Byte.x00 45) - header_size) = true)
    by reflexivity.
  split; [exact H|].
  exact (C10_odd_payload_server_error numpy_scipy praat_unavailable
           empty_world (repeat Byte.x00 45) H).
Defined.

(** ** The Praat chain stage by stage *)

Lemma praat_body_stages (pm : Praat) (x : list R) (fs : Z) (d : spec_float)
  pitch f0s formant f12 :
  pm_sound pm x fs = Ok d ->
  pm_to_pitch_ac pm x fs = Ok pitch ->
  f0_values_of pitch d = Ok f0s ->
  pm_to_formant_burg pm x fs = Ok formant ->
  formant_values_of formant d = Ok f12 ->
  praat_body pm x fs =
    Ok {| f0_mean := fst (f0_stats f0s); f0_range := snd (f0_stats f0s);
          jitter := fst (jitter_shimmer pm x fs (sf_value d));
          shimmer := snd (jitter_shimmer pm x fs (sf_value d));
          f1 := mean_or_zero (fst f12); f2 := mean_or_zero (snd f12);
          speech_rate := speech_rate_of (length f0s) (sf_value d) |}.
Proof.
  intros Hs Hp Hf0 Hfm Hf12. unfold praat_body.
  rewrite Hs. cbn [bind]. rewrite Hp. cbn [bind]. rewrite Hf0. cbn [bind].
  rewrite Hfm. cbn [bind]. rewrite Hf12. reflexivity.
Qed.

Lemma praat_body_ok_inv (pm : Praat) (x : list R) (fs : Z) (r : praat_feats) :
  praat_body pm x fs = Ok r ->
  exists d pitch f0s formant f12,
    pm_sound pm x fs = Ok d /\
    pm_to_pitch_ac pm x fs = Ok pitch /\
    f0_values_of pitch d = Ok f0s /\
    pm_to_formant_burg pm x fs = Ok formant /\
    formant_values_of formant d = Ok f12 /\
    r = {| f0_mean := fst (f0_stats f0s); f0_range := snd (f0_stats f0s);
           jitter := fst (jitter_shimmer pm x fs (sf_value d));
           shimmer := snd (jitter_shimmer pm x fs (sf_value d));
           f1 := mean_or_zero (fst f12); f2 := mean_or_zero (snd f12);
           speech_rate := speech_rate_of (length f0s) (sf_value d) |}.
Proof.
  unfold praat_body. intros H.
  destruct (pm_sound pm x fs) as [d|] eqn:Hs; [|discriminate]. cbn [bind] in H.
  destruct (pm_to_pitch_ac pm x fs) as [pitch|] eqn:Hp; [|discriminate].
  cbn [bind] in H.
  destruct (f0_values_of pitch d) as [f0s|] eqn:Hf0; [|discriminate].
  cbn [bind] in H.
  destruct (pm_to_formant_burg pm x fs) as [formant|] eqn:Hfm; [|discriminate].
  cbn [bind] in H.
  destruct (formant_values_of formant d) as [f12|] eqn:Hf12; [|discriminate].
  cbn [bind] in H. injection H as <-.
  exists d, pitch, f0s, formant, f12. repeat split; assumption.
Qed.

(** The inner handler of the pulse stage: a point process that cannot be
    created, or whose number of points cannot be read, gives (0, 0). *)
Lemma jitter_shimmer_pulse_failure (pm : Praat) (x : list R) (fs : Z) (dur : R) :
  (exists e, pm_to_point_process pm x fs = Raise e) \/
  (exists pp e, pm_to_point_process pm x fs = Ok (Some pp) /\
                pp_number_of_points pp = Raise e) ->
  jitter_shimmer pm x fs dur = (0, 0).
Proof.
  unfold jitter_shimmer. intros [[e He]|(pp & e & Hpp & Hn)].
  - rewrite He. reflexivity.
  - rewrite Hpp. cbn [bind]. rewrite Hn. reflexivity.
Qed.

(** ** C2 *)

(** Claim C2 (counterexample): a failure inside [compute_basic_features]
    (here scipy's periodogram raising [MemoryError] on a one-sample clip)
    is not caught by a handler of its own: the whole request fails with a
    server error and no record. *)
Lemma C2_basic_failure_aborts_request :
  snd (extract_features lib_periodogram_fails praat_unavailable empty_world
         (Some (repeat Byte.x00 46))) = Resp500 MemoryError.
Proof. reflexivity. Qed.

(** Claim C2 (amended): once the upload is decoded, a failure of
    [compute_basic_features] propagates to the route's handler (500, no
    record); otherwise the route answers 200 with a complete record. A
    failure of the FFT in [compute_mfcc] yields thirteen zeros. A failure
    anywhere in the Praat chain before the pulse stage (Sound, pitch,
    formant) defaults all seven Praat features to 0. When those stages
    succeed, the record holds their F0, formant and speech-rate values,
    and a failure of the pulse stage (creating the point process or
    counting its points) only sets jitter and shimmer to 0. *)
Theorem C2_failure_boundaries (lib : Lib) (pm : Praat) (w : world)
  (data : list Byte.byte) (ints : list Z) :
  data <> [] ->
  frombuffer_int16 (skipn header_size data) = Ok ints ->
  let samples := decode_samples ints in
  (forall e, compute_basic_features lib samples 16000 = Raise e ->
     snd (extract_features lib pm w (Some data)) = Resp500 e) /\
  (forall b, compute_basic_features lib samples 16000 = Ok b ->
     snd (extract_features lib pm w (Some data)) =
       Resp200 {| fr_basic := b; fr_mfcc := compute_mfcc lib samples 16000 13;
                  fr_praat := extract_praat_features pm samples 16000 |}) /\
  (forall e, np_fft lib samples = Raise e ->
     compute_mfcc lib samples 16000 13 = repeat 0 13) /\
  (forall e, praat_body pm samples 16000 = Raise e ->
     extract_praat_features pm samples 16000 = praat_defaults) /\
  (forall d pitch f0s formant f12,
     pm_sound pm samples 16000 = Ok d ->
     pm_to_pitch_ac pm samples 16000 = Ok pitch ->
     f0_values_of pitch d = Ok f0s ->
     pm_to_formant_burg pm samples 16000 = Ok formant ->
     formant_values_of formant d = Ok f12 ->
     let js := jitter_shimmer pm samples 16000 (sf_value d) in
     extract_praat_features pm samples 16000 =
       {| f0_mean := fst (f0_stats f0s); f0_range := snd (f0_stats f0s);
          jitter := fst js; shimmer := snd js;
          f1 := mean_or_zero (fst f12); f2 := mean_or_zero (snd f12);
          speech_rate := speech_rate_of (length f0s) (sf_value d) |} /\
     ((exists e, pm_to_point_process pm samples 16000 = Raise e) \/
      (exists pp e, pm_to_point_process pm samples 16000 = Ok (Some pp) /\
                    pp_number_of_points pp = Raise e) ->
      praat_body pm samples 16000 =
        Ok {| f0_mean := fst (f0_stats f0s); f0_range := snd (f0_stats f0s);
              jitter := 0; shimmer := 0;
              f1 := mean_or_zero (fst f12); f2 := mean_or_zero (snd f12);
              speech_rate := speech_rate_of (length f0s) (sf_value d) |})).
Proof.
  intros Hne Hdec samples.
  destruct data as [|b data']; [contradiction|].
  split; [|split; [|split; [|split]]].
  - intros e He. unfold extract_features.
    rewrite extract_features_body_decode, Hdec. simpl.
    fold samples. rewrite He. reflexivity.
  - intros bf Hb. unfold extract_features.
    rewrite extract_features_body_decode, Hdec. simpl.
    fold samples. rewrite Hb. reflexivity.
  - intros e He. unfold compute_mfcc. rewrite He. reflexivity.
  - intros e He. unfold extract_praat_features. rewrite He. reflexivity.
  - intros d pitch f0s formant f12 Hs Hp Hf0 Hfm Hf12 js.
    pose proof (praat_body_stages pm samples 16000 d pitch f0s formant f12
                  Hs Hp Hf0 Hfm Hf12) as Hb.
    split.
    + unfold extract_praat_features. rewrite Hb. reflexivity.
    + intros Hpulse. rewrite Hb.
      rewrite (jitter_shimmer_pulse_failure pm samples 16000 (sf_value d) Hpulse).
      reflexivity.
Qed.

Lemma C2_failure_boundaries_witness :
  repeat Byte.x00 46 <> [] /\
  frombuffer_int16 (skipn header_size (repeat Byte.x00 46)) = Ok [0%Z] /\
  snd (extract_features lib_periodogram_fails praat_unavailable empty_world
         (Some (repeat Byte.x00 46))) = Resp500 MemoryError.
Proof.
  assert (H1 : repeat Byte.x00 46 <> []) by discriminate.
  assert (H2 : frombuffer_int16 (skipn header_size (repeat Byte.x00 46)) =
               Ok [0%Z]) by reflexivity.
  split; [exact H1|]. split; [exact H2|].
  destruct (C2_failure_boundaries lib_periodogram_fails praat_unavailable
              empty_world _ _ H1 H2) as [Hbasic _].
  apply (Hbasic MemoryError). reflexivity.
Defined.

(** ** C4 *)

(** Claim C4: [compute_mfcc] always returns exactly 13 coefficients; when
    the FFT raises, it returns the zero vector of length 13. *)
Theorem C4_mfcc_thirteen_coeffs (lib : Lib) (x : list R) (sample_rate : Z) :
  length (compute_mfcc lib x sample_rate 13) = 13%nat /\
  (forall e, np_fft lib x = Raise e ->
     compute_mfcc lib x sample_rate 13 = repeat 0 13).
Proof.
  unfold compute_mfcc. split.
  - destruct (np_fft lib x); reflexivity.
  - intros e He. rewrite He. reflexivity.
Qed.

Lemma C4_mfcc_thirteen_coeffs_witness :
  np_fft numpy_scipy [] = Raise ValueError /\
  compute_mfcc numpy_scipy [] 16000 13 = repeat 0 13.
Proof.
  split; [reflexivity|].
  exact (proj2 (C4_mfcc_thirteen_coeffs numpy_scipy [] 16000) ValueError
           eq_refl).
Defined.

(** ** C5 *)

Lemma band_width_bounds (L i : nat) :
  (L / 13 <= band_end L 13 i - band_start L 13 i <= L / 13 + 1)%nat.
Proof.
  unfold band_end, band_start.
  replace ((i + 1) * L)%nat with (i * L + L)%nat by lia.
  pose proof (Nat.div_mod_eq (i * L) 13) as E1.
  pose proof (Nat.div_mod_eq (i * L + L) 13) as E2.
  pose proof (Nat.div_mod_eq L 13) as E3.
  pose proof (Nat.mod_upper_bound (i * L) 13 ltac:(lia)).
  pose proof (Nat.mod_upper_bound (i * L + L) 13 ltac:(lia)).
  pose proof (Nat.mod_upper_bound L 13 ltac:(lia)).
  set (a := (i * L)%nat) in *.
  set (q1 := (a / 13)%nat) in *. set (r1 := (a mod 13)%nat) in *.
  set (q2 := ((a + L) / 13)%nat) in *. set (r2 := ((a + L) mod 13)%nat) in *.
  set (q := (L / 13)%nat) in *. set (r := (L mod 13)%nat) in *.
  lia.
Qed.

(** Claim C5 (counterexample): the 13 bands need not have equal width. A
    clip of 28 samples has a 14-bin half spectrum, split into bands of
    widths 1 (band 0) and 2 (band 12). *)
Lemma C5_unequal_band_widths :
  exists fft, np_fft numpy_scipy (repeat 0 28) = Ok fft /\
    length (half_magnitude fft) = 14%nat /\
    (band_end 14 13 0 - band_start 14 13 0 = 1)%nat /\
    (band_end 14 13 12 - band_start 14 13 12 = 2)%nat.
Proof.
  eexists. split; [reflexivity|].
  split; [|split; reflexivity].
  unfold half_magnitude, dft_bins.
  rewrite length_map, length_firstn, length_map, length_seq. reflexivity.
Qed.

(** Claim C5 (amended): coefficient i is the mean of the half-spectrum
    magnitudes with index in [floor(i L / 13), floor((i+1) L / 13)), or 0
    when that band is empty; the 13 bands are contiguous and cover the
    L magnitudes, and each has width floor(L/13) or floor(L/13) + 1. *)
Theorem C5_mfcc_band_partition (lib : Lib) (x : list R) (sample_rate : Z)
  (fft : list (R * R)) :
  np_fft lib x = Ok fft ->
  let magnitude := half_magnitude fft in
  let L := length magnitude in
  compute_mfcc lib x sample_rate 13 = map (band_coeff magnitude 13) (seq 0 13) /\
  L = (length fft / 2)%nat /\
  band_start L 13 0 = 0%nat /\
  band_end L 13 12 = L /\
  (forall i, (i < 12)%nat -> band_end L 13 i = band_start L 13 (S i)) /\
  (forall i, (i < 13)%nat ->
     (L / 13 <= band_end L 13 i - band_start L 13 i <= L / 13 + 1)%nat).
Proof.
  intros Hfft magnitude L.
  split; [unfold compute_mfcc; rewrite Hfft; reflexivity|].
  split.
  { unfold L, magnitude, half_magnitude.
    rewrite length_map, length_firstn.
    apply Nat.min_l, Nat.Div0.div_le_upper_bound; lia. }
  split; [reflexivity|].
  split.
  { unfold band_end. replace ((12 + 1) * L)%nat with (L * 13)%nat by lia.
    apply Nat.div_mul. lia. }
  split.
  - intros i _. unfold band_end, band_start. f_equal. lia.
  - intros i _. apply band_width_bounds.
Qed.

(** On 28 samples the half spectrum has 14 magnitudes: bands 0 to 11
    have width 1 and band 12 has width 2. *)
Lemma C5_mfcc_band_partition_witness :
  let fft := dft_bins (repeat 0 28) 28 in
  let magnitude := half_magnitude fft in
  let L := length magnitude in
  np_fft numpy_scipy (repeat 0 28) = Ok fft /\ L = 14%nat /\
  compute_mfcc numpy_scipy (repeat 0 28) 16000 13 =
    map (band_coeff magnitude 13) (seq 0 13) /\
  L = (length fft / 2)%nat /\
  band_start L 13 0 = 0%nat /\
  band_end L 13 12 = L /\
  (forall i, (i < 12)%nat -> band_end L 13 i = band_start L 13 (S i)) /\
  (forall i, (i < 13)%nat ->
     (L / 13 <= band_end L 13 i - band_start L 13 i <= L / 13 + 1)%nat).
Proof.
  intros fft magnitude L.
  assert (H : np_fft numpy_scipy (repeat 0 28) = Ok fft) by reflexivity.
  assert (HL : L = 14%nat).
  { unfold L, magnitude, fft, half_magnitude, dft_bins.
    rewrite length_map, length_firstn, length_map, length_seq. reflexivity. }
  split; [exact H|]. split; [exact HL|].
  exact (C5_mfcc_band_partition numpy_scipy (repeat 0 28) 16000 fft H).
Defined.

Lemma collect_positive_length (get : R -> result (option R)) (ts vs : list R) :
  collect_positive get ts = Ok vs -> (length vs <= length ts)%nat.
Proof.
  revert vs; induction ts as [|t ts IH]; intros vs H; simpl in H.
  - injection H as <-. simpl. lia.
  - destruct (get t) as [v|]; [|discriminate]. simpl in H.
    destruct (collect_positive get ts) as [rest|]; [|discriminate].
    simpl in H. injection H as <-.
    specialize (IH rest eq_refl).
    unfold keep_positive. destruct v as [f|]; [destruct (Rgt_dec f 0)|];
      simpl; lia.
Qed.

(** ** Frame times in binary64 *)

Lemma binary_round_aux_sign (prec emax : Z) sx mx ex lx s m e :
  binary_round_aux prec emax sx mx ex lx = S754_finite s m e -> s = sx.
Proof.
  unfold binary_round_aux.
  destruct (shr_fexp prec emax mx ex lx) as [mrs' e'].
  destruct (shr_fexp prec emax _ e' loc_Exact) as [mrs'' e''].
  destruct (shr_m mrs'') as [|p|p]; try discriminate.
  destruct (Z.leb e'' (emax - prec)%Z); [|discriminate].
  intros H. injection H as <- _ _. reflexivity.
Qed.

Lemma f64_div_finite_pos (d : spec_float) (m : positive) (e : Z) :
  f64_div d f64_0_01 = S754_finite false m e ->
  exists m' e', d = S754_finite false m' e'.
Proof.
  unfold f64_div, f64_0_01, SFdiv.
  destruct d as [s|s| |s m' e']; try discriminate.
  destruct (SFdiv_core_binary 53 1024 (Z.pos m') e' (Z.pos 5764607523034235) (-59))
    as [[mz ez] lz].
  intros H. apply binary_round_aux_sign in H.
  destruct s; [discriminate|]. exists m', e'. reflexivity.
Qed.

Lemma sf_ceil_nonpos (s : bool) (m : positive) (e : Z) :
  s = true -> (sf_ceil (S754_finite s m e) <= 0)%Z.
Proof.
  intros ->. unfold sf_ceil.
  destruct (0 <=? e)%Z eqn:He.
  - apply Z.leb_le in He. pose proof (Z.pow_pos_nonneg 2 e ltac:(lia) He). nia.
  - apply Z.leb_gt in He.
    assert (0 < 2 ^ (- e))%Z by (apply Z.pow_pos_nonneg; lia).
    assert (0 <= Z.pos m / 2 ^ (- e))%Z by (apply Z.div_pos; lia).
    simpl Z.opp. lia.
Qed.

Lemma arange_length_pos (d : spec_float) (n : nat) :
  arange_length d = Ok n -> (0 < n)%nat ->
  exists m e, d = S754_finite false m e.
Proof.
  unfold arange_length.
  destruct (f64_div d f64_0_01) as [s|s| |s m e] eqn:Hq; try discriminate.
  - simpl. intros H. injection H as <-. lia.
  - destruct s.
    + pose proof (sf_ceil_nonpos true m e eq_refl) as Hc.
      set (c := sf_ceil (S754_finite true m e)) in *. cbv zeta.
      destruct ((- 2 ^ 63 <=? c) && (c <=? 2 ^ 63))%Z; [|discriminate].
      intros Hr. injection Hr as <-. lia.
    + intros _ _. exact (f64_div_finite_pos d m e Hq).
Qed.

Lemma sf_value_pos (m : positive) (e : Z) : 0 < sf_value (S754_finite false m e).
Proof.
  unfold sf_value. rewrite Rmult_1_l.
  apply Rmult_lt_0_compat; [apply IZR_lt; lia|apply powerRZ_lt; lra].
Qed.

Lemma arange_times_duration_pos (d : spec_float) (ts : list R) :
  arange_times d = Ok ts -> ts <> [] -> 0 < sf_value d.
Proof.
  unfold arange_times. destruct (arange_length d) as [n|] eqn:Hn; [|discriminate].
  cbn [bind]. intros H Hne. injection H as <-.
  destruct n as [|n]; [contradiction Hne; reflexivity|].
  destruct (arange_length_pos d (S n) Hn ltac:(lia)) as (m & e & ->).
  apply sf_value_pos.
Qed.

(** A voiced frame exists only if [np.arange(0, duration, 0.01)] is
    non-empty, hence only if the duration is positive. *)
Lemma f0_values_duration_pos pitch (d : spec_float) (f0s : list R) :
  f0_values_of pitch d = Ok f0s -> f0s <> [] -> 0 < sf_value d.
Proof.
  destruct pitch as [p|]; cbn [f0_values_of]; intros H Hne.
  - destruct (arange_times d) as [ts|] eqn:Hts; [|discriminate].
    cbn [bind] in H. apply (arange_times_duration_pos d ts Hts).
    intros ->. apply collect_positive_length in H. simpl in H.
    destruct f0s; [contradiction|simpl in H; lia].
  - injection H as <-. contradiction Hne. reflexivity.
Qed.

Lemma clamp_range (v : R) : 80 <= py_max 80 (py_min 200 v) <= 200.
Proof.
  unfold py_max, py_min.
  destruct (Rlt_dec v 200); destruct (Rgt_dec _ 80); lra.
Qed.

Lemma speech_rate_of_cases (n : nat) (d : R) :
  speech_rate_of n d = 0 \/ 80 <= speech_rate_of n d <= 200.
Proof.
  unfold speech_rate_of. destruct (0 <? n)%nat.
  - right. apply clamp_range.
  - left. reflexivity.
Qed.

(** ** C3 *)

(** Claim C3 (counterexample): on a clip with no voiced frame the speech
    rate is 0, outside [80, 200]. *)
Lemma C3_unvoiced_speech_rate_zero :
  ~ (80 <= speech_rate (extract_praat_features praat_unvoiced (repeat 0 160) 16000)
       <= 200).
Proof.
  assert (H : speech_rate (extract_praat_features praat_unvoiced
                             (repeat 0 160) 16000) = 0) by reflexivity.
  rewrite H. lra.
Qed.

(** Claim C3 (amended): the speech rate is 0 when the Praat chain fails
    and when no sampled frame is voiced; it is always either 0 or in
    [80, 200]; when the chain runs and n >= 1 frames are voiced, the
    duration is positive and the speech rate is
    max(80, min(200, n * 0.01 / 0.5 / duration * 60)). *)
Theorem C3_speech_rate_clamped (pm : Praat) (x : list R) (fs : Z) :
  let sr := speech_rate (extract_praat_features pm x fs) in
  (forall e, praat_body pm x fs = Raise e -> sr = 0) /\
  (forall d pitch,
     pm_sound pm x fs = Ok d -> pm_to_pitch_ac pm x fs = Ok pitch ->
     f0_values_of pitch d = Ok [] -> sr = 0) /\
  (sr = 0 \/ 80 <= sr <= 200) /\
  (forall d pitch f0s,
     (exists r, praat_body pm x fs = Ok r) ->
     pm_sound pm x fs = Ok d ->
     pm_to_pitch_ac pm x fs = Ok pitch ->
     f0_values_of pitch d = Ok f0s ->
     (0 < length f0s)%nat ->
     sf_value d > 0 /\
     sr = py_max 80 (py_min 200 (INR (length f0s) * 0.01 / 0.5 / sf_value d * 60))).
Proof.
  intros sr. split; [|split; [|split]].
  - intros e He. unfold sr, extract_praat_features. rewrite He. reflexivity.
  - intros d pitch Hs Hp Hf0. unfold sr, extract_praat_features.
    destruct (praat_body pm x fs) as [r|e] eqn:Hb; [|reflexivity].
    destruct (praat_body_ok_inv pm x fs r Hb)
      as (d' & pitch' & f0s & formant & f12 & Hs' & Hp' & Hf0' & _ & _ & ->).
    rewrite Hs in Hs'. injection Hs' as <-.
    rewrite Hp in Hp'. injection Hp' as <-.
    rewrite Hf0 in Hf0'. injection Hf0' as <-.
    reflexivity.
  - unfold sr, extract_praat_features.
    destruct (praat_body pm x fs) as [r|e] eqn:Hb; cbn [try_except].
    + destruct (praat_body_ok_inv pm x fs r Hb)
        as (d & pitch & f0s & formant & f12 & _ & _ & _ & _ & _ & ->).
      apply speech_rate_of_cases.
    + left. reflexivity.
  - intros d pitch f0s [r Hb] Hs Hp Hf0 Hn.
    destruct (praat_body_ok_inv pm x fs r Hb)
      as (d' & pitch' & f0s' & formant & f12 & Hs' & Hp' & Hf0' & _ & _ & Hr).
    rewrite Hs in Hs'. injection Hs' as <-.
    rewrite Hp in Hp'. injection Hp' as <-.
    rewrite Hf0 in Hf0'. injection Hf0' as <-.
    assert (Hd : sf_value d > 0).
    { apply (f0_values_duration_pos pitch d f0s Hf0).
      intros ->. simpl in Hn. lia. }
    split; [exact Hd|].
    unfold sr, extract_praat_features. rewrite Hb. cbn [try_except]. rewrite Hr.
    cbn [speech_rate]. unfold speech_rate_of.
    replace (0 <? length f0s)%nat with true by (symmetry; apply Nat.ltb_lt; exact Hn).
    destruct (Rgt_dec (sf_value d) 0) as [_|Hnd]; [reflexivity|contradiction].
Qed.

Lemma voiced_100_f0_values (ts : list R) :
  collect_positive (fun _ => Ok (Some 100)) ts = Ok (repeat 100 (length ts)).
Proof.
  induction ts as [|t ts IH]; simpl; [reflexivity|].
  rewrite IH. simpl. unfold keep_positive.
  destruct (Rgt_dec 100 0) as [_|H]; [reflexivity|lra].
Qed.

(** 160 samples at 16 kHz last 0.01 s: [np.arange(0, 0.01, 0.01)] has the
    single time 0. *)
Lemma arange_times_160 :
  arange_times (sound_duration (repeat 0 160) 16000) = Ok [INR 0 * 0.01].
Proof. reflexivity. Qed.

Lemma C3_speech_rate_clamped_witness :
  sf_value (sound_duration (repeat 0 160) 16000) > 0 /\
  speech_rate (extract_praat_features praat_voiced_100 (repeat 0 160) 16000) =
    py_max 80 (py_min 200 (INR 1 * 0.01 / 0.5 /
                           sf_value (sound_duration (repeat 0 160) 16000) * 60)).
Proof.
  assert (Hs : pm_sound praat_voiced_100 (repeat 0 160) 16000 =
               Ok (sound_duration (repeat 0 160) 16000)) by reflexivity.
  assert (Hp : pm_to_pitch_ac praat_voiced_100 (repeat 0 160) 16000 =
               Ok (Some (fun _ => Ok (Some 100)))) by reflexivity.
  assert (Hf0 : f0_values_of (Some (fun _ => Ok (Some 100)))
                  (sound_duration (repeat 0 160) 16000) = Ok [100]).
  { cbn [f0_values_of]. rewrite arange_times_160. cbn [bind].
    exact (voiced_100_f0_values [INR 0 * 0.01]). }
  assert (Hb : exists r, praat_body praat_voiced_100 (repeat 0 160) 16000 = Ok r).
  { eexists. apply (praat_body_stages _ _ _ _ _ [100] None ([], [])
                      Hs Hp Hf0 eq_refl eq_refl). }
  destruct (C3_speech_rate_clamped praat_voiced_100 (repeat 0 160) 16000)
    as (_ & _ & _ & HB).
  exact (HB _ _ [100] Hb Hs Hp Hf0 (Nat.lt_0_succ 0)).
Defined.

(** ** C6 *)




(** ** The floored power spectrum *)

Lemma psd_floor_pos : 0 < psd_floor.
Proof. unfold psd_floor. lra. Qed.

Lemma np_sum_pos (l : list R) :
  Forall (fun v => 0 < v) l -> l <> [] -> 0 < np_sum l.
Proof.
  induction l as [|a l IH]; intros Hall Hne; [contradiction|].
  inversion Hall as [|? ? Ha Hl]; subst. simpl.
  destruct l as [|b l'].
  - simpl. lra.
  - assert (0 < np_sum (b :: l')) by (apply IH; [exact Hl|discriminate]).
    lra.
Qed.

(** After [np.maximum(psd, 1e-20)] every bin is positive, so a non-empty
    spectrum has a positive total power and a positive arithmetic mean. *)
Lemma floored_psd_mean_pos (l : list R) :
  l <> [] ->
  0 < np_sum (map (Rmax psd_floor) l) /\ 0 < np_mean (map (Rmax psd_floor) l).
Proof.
  intros Hne.
  assert (Hsum : 0 < np_sum (map (Rmax psd_floor) l)).
  { apply np_sum_pos.
    - apply Forall_forall. intros v Hv. apply in_map_iff in Hv.
      destruct Hv as (u & <- & _). pose proof psd_floor_pos.
      pose proof (Rmax_l psd_floor u). lra.
    - destruct l; [contradiction|discriminate]. }
  split; [exact Hsum|].
  unfold np_mean. apply Rdiv_lt_0_compat; [exact Hsum|].
  apply lt_0_INR. rewrite length_map. destruct l; [contradiction|simpl; lia].
Qed.

Lemma scipy_periodogram_ok (x : list R) (fs : Z) :
  fs <> 0%Z ->
  exists freqs psd, scipy_periodogram x fs = Ok (freqs, psd) /\
    length psd = (length x / 2 + 1)%nat.
Proof.
  intros Hfs. unfold scipy_periodogram.
  replace (fs =? 0)%Z with false by (symmetry; apply Z.eqb_neq; exact Hfs).
  eexists; eexists. split; [reflexivity|].
  rewrite length_map, length_seq. reflexivity.
Qed.

Lemma count_sign_changes_cons2 (a b : R) (l : list R) :
  count_sign_changes (a :: b :: l) =
  ((if Bool.eqb (signbit a) (signbit b) then 0 else 1) +
   count_sign_changes (b :: l))%nat.
Proof. reflexivity. Qed.

Lemma count_sign_changes_zeros (n : nat) : count_sign_changes (repeat 0 n) = 0%nat.
Proof.
  induction n as [|[|n] IH]; [reflexivity|reflexivity|].
  change (repeat 0 (S (S n))) with (0 :: 0 :: repeat 0 n).
  rewrite count_sign_changes_cons2, Bool.eqb_reflx. exact IH.
Qed.

Lemma np_sum_squares_zeros (n : nat) :
  np_sum (map (fun v => v * v) (repeat 0 n)) = 0.
Proof.
  induction n as [|n IH]; [reflexivity|].
  transitivity (0 * 0 + np_sum (map (fun v => v * v) (repeat 0 n)));
    [reflexivity|].
  rewrite IH. ring.
Qed.

(** ** C7 *)

(** Claim C7: on an all-zero clip of n >= 1 samples, at any non-zero
    sample rate (the route uses 16000), [compute_basic_features] succeeds
    with rms = 0 and zcr = 0, and its spectral flatness is the geometric
    mean of the floored power bins divided by their arithmetic mean, which
    is positive (no division by zero). *)
Theorem C7_silence_basic_features (n : nat) (sample_rate : Z) :
  (0 < n)%nat -> sample_rate <> 0%Z ->
  exists b psd,
    compute_basic_features numpy_scipy (repeat 0 n) sample_rate = Ok b /\
    rms b = 0 /\ zcr b = 0 /\
    psd <> [] /\ 0 < np_mean psd /\
    spectralFlatness b = exp (np_mean (map ln psd)) / np_mean psd.
Proof.
  intros Hn Hfs.
  destruct (scipy_periodogram_ok (repeat 0 n) sample_rate Hfs)
    as (freqs & psd0 & Hpg & Hlen).
  assert (Hne0 : psd0 <> []) by (intros ->; simpl in Hlen; lia).
  destruct (floored_psd_mean_pos psd0 Hne0) as [_ Hmean].
  set (psd := map (Rmax psd_floor) psd0) in *.
  assert (Hne : psd <> []) by (unfold psd; destruct psd0; [contradiction|discriminate]).
  unfold compute_basic_features.
  rewrite repeat_length.
  replace (n =? 0)%nat with false by (symmetry; apply Nat.eqb_neq; lia).
  replace (0 <? n)%nat with true by (symmetry; apply Nat.ltb_lt; exact Hn).
  cbn [periodogram numpy_scipy]. rewrite Hpg. cbn [bind fst snd].
  fold psd.
  replace (0 <? length psd)%nat with true
    by (symmetry; apply Nat.ltb_lt; destruct psd; [contradiction|simpl; lia]).
  destruct (Rgt_dec (np_mean psd) 0) as [_|Hng]; [|lra].
  eexists; exists psd.
  split; [reflexivity|].
  cbn [rms zcr spectralFlatness].
  split.
  { unfold np_mean. rewrite np_sum_squares_zeros.
    unfold Rdiv. rewrite Rmult_0_l. apply sqrt_0. }
  split.
  { rewrite count_sign_changes_zeros.
    destruct (1 <? n)%nat; [|reflexivity].
    simpl. unfold Rdiv. apply Rmult_0_l. }
  split; [exact Hne|]. split; [exact Hmean|]. reflexivity.
Qed.

Lemma C7_silence_basic_features_witness :
  exists b psd,
    compute_basic_features numpy_scipy (repeat 0 3) 16000 = Ok b /\
    rms b = 0 /\ zcr b = 0 /\
    psd <> [] /\ 0 < np_mean psd /\
    spectralFlatness b = exp (np_mean (map ln psd)) / np_mean psd.
Proof.
  exact (C7_silence_basic_features 3 16000 ltac:(lia) ltac:(discriminate)).
Defined.

(** * Further properties *)

(** ** PCM decoding *)

Lemma byte_of_Z_to_nat (n : Z) :
  Z.of_nat (Byte.to_nat (byte_of_Z n)) = (n mod 256)%Z.
Proof.
  unfold byte_of_Z.
  pose proof (Byte.to_of_nat_option_map (Z.to_nat (n mod 256))) as H.
  pose proof (Z.mod_pos_bound n 256 ltac:(lia)) as Hb.
  destruct (Byte.of_nat (Z.to_nat (n mod 256))) as [b|] eqn:E; simpl in H.
  - apply Byte.to_of_nat in E. rewrite E. lia.
  - replace (Nat.leb (Z.to_nat (n mod 256)) 255) with true in H
      by (symmetry; apply Nat.leb_le; lia).
    discriminate.
Qed.

Lemma int16_le_bounds (lo hi : Byte.byte) :
  (-32768 <= int16_le lo hi <= 32767)%Z.
Proof.
  unfold int16_le.
  pose proof (Byte.to_nat_bounded lo). pose proof (Byte.to_nat_bounded hi).
  destruct (32768 <=? _)%Z eqn:E;
    [apply Z.leb_le in E | apply Z.leb_gt in E]; lia.
Qed.

Lemma int16_le_of_bytes (v : Z) :
  (-32768 <= v <= 32767)%Z ->
  int16_le (byte_of_Z (v mod 65536)) (byte_of_Z ((v mod 65536) / 256)) = v.
Proof.
  intros Hv. unfold int16_le.
  rewrite !byte_of_Z_to_nat.
  set (u := (v mod 65536)%Z).
  assert (Hu : (0 <= u < 65536)%Z) by (apply Z.mod_pos_bound; lia).
  assert (Hsplit : (u mod 256 + 256 * (u / 256 mod 256) = u)%Z).
  { rewrite (Z.mod_small (u / 256) 256).
    - pose proof (Z.div_mod u 256 ltac:(lia)). lia.
    - split; [apply Z.div_pos; lia|]. apply Z.div_lt_upper_bound; lia. }
  rewrite Hsplit.
  assert (Hcase : ((v >= 0 /\ u = v) \/ (v < 0 /\ u = v + 65536))%Z).
  { destruct (Z_lt_le_dec v 0) as [Hneg|Hpos].
    - right. split; [lia|]. unfold u.
      rewrite <- (Z.mod_small (v + 65536) 65536) by lia.
      rewrite <- Z.add_mod_idemp_r by lia. rewrite Z.mod_same by lia.
      rewrite Z.add_0_r. reflexivity.
    - left. split; [lia|]. unfold u. apply Z.mod_small. lia. }
  destruct (32768 <=? u)%Z eqn:E;
    [apply Z.leb_le in E | apply Z.leb_gt in E]; lia.
Qed.

Lemma decode_sample_bounds (s : Z) :
  (-32768 <= s <= 32767)%Z -> -1 <= IZR s / 32768 < 1.
Proof.
  intros [Hlo Hhi].
  apply IZR_le in Hlo. apply IZR_le in Hhi.
  split; unfold Rdiv;
    [apply (Rmult_le_reg_r 32768) | apply (Rmult_lt_reg_r 32768)]; try lra;
    rewrite Rmult_assoc, Rinv_l, Rmult_1_r by lra; lra.
Qed.

Lemma frombuffer_int16_even_decode (b : list Byte.byte) :
  Nat.even (length b) = true ->
  exists ints, frombuffer_int16 b = Ok ints /\
    (2 * length ints = length b)%nat /\
    Forall (fun v => -1 <= v < 1) (decode_samples ints).
Proof.
  revert b; fix IH 1.
  intros [|lo [|hi b]] H; simpl in H.
  - exists []. split; [reflexivity|]. split; [reflexivity|]. constructor.
  - discriminate.
  - destruct (IH b H) as (ints & Hb & Hlen & Hall).
    exists (int16_le lo hi :: ints). simpl. rewrite Hb.
    split; [reflexivity|]. split; [simpl in Hlen |- *; lia|].
    constructor; [apply decode_sample_bounds, int16_le_bounds|exact Hall].
Qed.

(** X: [np.frombuffer(..., dtype=np.int16)] succeeds exactly on an even
    number of bytes, giving half as many samples, each of which is in
    [-1, 1) after division by 32768. *)
Theorem frombuffer_int16_even (b : list Byte.byte) :
  Nat.even (length b) = true ->
  exists ints, frombuffer_int16 b = Ok ints /\
    (2 * length ints = length b)%nat /\
    Forall (fun v => -1 <= v < 1) (decode_samples ints).
Proof. exact (frombuffer_int16_even_decode b). Qed.

Lemma frombuffer_int16_even_witness :
  exists ints, frombuffer_int16 [Byte.x01; Byte.x80] = Ok ints /\
    (2 * length ints = length [Byte.x01; Byte.x80])%nat /\
    Forall (fun v => -1 <= v < 1) (decode_samples ints).
Proof. exact (frombuffer_int16_even [Byte.x01; Byte.x80] eq_refl). Defined.

(** X: decoding the little-endian bytes of 16-bit samples gives the
    samples back. *)
Theorem frombuffer_int16_roundtrip (l : list Z) :
  Forall (fun v => -32768 <= v <= 32767)%Z l ->
  frombuffer_int16 (encode_int16s l) = Ok l.
Proof.
  induction l as [|v l IH]; intros Hall; [reflexivity|].
  inversion Hall as [|? ? Hv Hl]; subst.
  simpl. rewrite (IH Hl). simpl. rewrite int16_le_of_bytes by exact Hv.
  reflexivity.
Qed.

Lemma frombuffer_int16_roundtrip_witness :
  frombuffer_int16 (encode_int16s [(-32768)%Z; (-1)%Z; 0%Z; 32767%Z]) =
    Ok [(-32768)%Z; (-1)%Z; 0%Z; 32767%Z].
Proof.
  apply frombuffer_int16_roundtrip.
  repeat (apply Forall_cons; [lia|]). apply Forall_nil.
Defined.

(** ** Helper facts on sums and means *)

Lemma np_sum_nonneg (l : list R) : Forall (fun v => 0 <= v) l -> 0 <= np_sum l.
Proof.
  induction 1 as [|a l Ha _ IH]; unfold np_sum in *; simpl; lra.
Qed.

Lemma np_mean_nonneg (l : list R) : Forall (fun v => 0 <= v) l -> 0 <= np_mean l.
Proof.
  intros H. pose proof (np_sum_nonneg l H) as Hs. unfold np_mean.
  destruct l as [|a l'].
  - simpl. unfold Rdiv. rewrite Rmult_0_l. lra.
  - unfold Rdiv. apply Rmult_le_pos; [exact Hs|].
    left. apply Rinv_0_lt_compat, lt_0_INR. simpl. lia.
Qed.

Lemma np_sum_le_const (l : list R) (c : R) :
  Forall (fun v => v <= c) l -> np_sum l <= INR (length l) * c.
Proof.
  induction 1 as [|a l Ha _ IH]; unfold np_sum in *; cbn [fold_right length]; [simpl; lra|].
  rewrite S_INR. lra.
Qed.

Lemma np_mean_le_const (l : list R) (c : R) :
  l <> [] -> Forall (fun v => v <= c) l -> np_mean l <= c.
Proof.
  intros Hne H. pose proof (np_sum_le_const l c H) as Hs.
  assert (Hn : 0 < INR (length l))
    by (apply lt_0_INR; destruct l; [contradiction|simpl; lia]).
  unfold np_mean, Rdiv.
  apply (Rmult_le_reg_r (INR (length l))); [exact Hn|].
  rewrite Rmult_assoc, Rinv_l, Rmult_1_r by lra. lra.
Qed.

Lemma ratio_bounds (S P lo hi : R) :
  0 < P -> lo * P <= S <= hi * P -> lo <= S / P <= hi.
Proof.
  intros HP [Hlo Hhi]. unfold Rdiv.
  split; apply (Rmult_le_reg_r P); try exact HP;
    rewrite ?Rmult_assoc, ?Rinv_l, ?Rmult_1_r by lra; lra.
Qed.

Lemma weighted_sum_bounds (f p : list R) (lo hi : R) :
  length f = length p ->
  Forall (fun a => lo <= a <= hi) f -> Forall (fun q => 0 <= q) p ->
  lo * np_sum p <= np_sum (mul_elems f p) <= hi * np_sum p.
Proof.
  revert p; induction f as [|a f IH]; intros p Hlen Hf Hp.
  - destruct p; [unfold np_sum; simpl; lra|discriminate].
  - destruct p as [|q p]; [discriminate|].
    inversion Hf as [|? ? Ha Hf']; subst. inversion Hp as [|? ? Hq Hp']; subst.
    simpl in Hlen. injection Hlen as Hlen.
    specialize (IH p Hlen Hf' Hp'). unfold np_sum in *. simpl.
    assert (lo * q <= a * q) by (apply Rmult_le_compat_r; lra).
    assert (a * q <= hi * q) by (apply Rmult_le_compat_r; lra).
    split; lra.
Qed.

Lemma Forall_slice {A : Type} (P : A -> Prop) (l : list A) (a b : nat) :
  Forall P l -> Forall P (slice l a b).
Proof.
  intros H. unfold slice. apply Forall_forall. intros y Hy.
  apply (proj1 (Forall_forall P l) H).
  set (k := (b - a)%nat) in Hy.
  assert (Hs : In y (skipn a l)).
  { rewrite <- (firstn_skipn k (skipn a l)). apply in_or_app. now left. }
  rewrite <- (firstn_skipn a l). apply in_or_app. now right.
Qed.

Lemma count_sign_changes_le (x : list R) :
  (count_sign_changes x <= length x - 1)%nat.
Proof.
  induction x as [|a l IH]; [simpl; lia|].
  destruct l as [|b l]; [simpl; lia|].
  rewrite count_sign_changes_cons2. simpl length in *.
  destruct (Bool.eqb _ _); lia.
Qed.

Lemma fold_left_Rmin_le (l : list R) (a : R) : fold_left Rmin l a <= a.
Proof.
  revert a; induction l as [|b l IH]; intros a; simpl; [lra|].
  pose proof (IH (Rmin a b)). pose proof (Rmin_l a b). lra.
Qed.

Lemma fold_left_Rmax_ge (l : list R) (a : R) : a <= fold_left Rmax l a.
Proof.
  revert a; induction l as [|b l IH]; intros a; simpl; [lra|].
  pose proof (IH (Rmax a b)). pose proof (Rmax_l a b). lra.
Qed.

Lemma keep_positive_pos (v : option R) (rest : list R) :
  Forall (fun u => 0 < u) rest -> Forall (fun u => 0 < u) (keep_positive v rest).
Proof.
  intros H. unfold keep_positive.
  destruct v as [f|]; [destruct (Rgt_dec f 0)|]; auto.
Qed.

Lemma collect_positive_pos (get : R -> result (option R)) (ts vs : list R) :
  collect_positive get ts = Ok vs -> Forall (fun u => 0 < u) vs.
Proof.
  revert vs; induction ts as [|t ts IH]; intros vs H; simpl in H.
  - injection H as <-. constructor.
  - destruct (get t) as [v|]; [|discriminate]. simpl in H.
    destruct (collect_positive get ts) as [rest|]; [|discriminate].
    simpl in H. injection H as <-.
    apply keep_positive_pos, IH. reflexivity.
Qed.

Lemma collect_formants_pos (get : nat -> R -> result (option R)) (ts l1 l2 : list R) :
  collect_formants get ts = Ok (l1, l2) ->
  Forall (fun u => 0 < u) l1 /\ Forall (fun u => 0 < u) l2.
Proof.
  revert l1 l2; induction ts as [|t ts IH]; intros l1 l2 H; simpl in H.
  - injection H as <- <-. split; constructor.
  - destruct (get 1%nat t) as [v1|]; [|discriminate]. simpl in H.
    destruct (get 2%nat t) as [v2|]; [|discriminate]. simpl in H.
    destruct (collect_formants get ts) as [[r1 r2]|]; [|discriminate].
    simpl in H. injection H as <- <-.
    destruct (IH r1 r2 eq_refl) as [H1 H2].
    split; apply keep_positive_pos; assumption.
Qed.

Lemma pos_list_mean_nonneg (l : list R) :
  Forall (fun u => 0 < u) l -> 0 <= mean_or_zero l.
Proof.
  intros H. destruct l as [|a l']; [simpl; lra|].
  apply np_mean_nonneg. eapply Forall_impl; [|exact H]. intros u Hu; simpl; lra.
Qed.

Lemma f0_stats_nonneg (l : list R) :
  Forall (fun u => 0 < u) l -> 0 <= fst (f0_stats l) /\ 0 <= snd (f0_stats l).
Proof.
  intros H. destruct l as [|v vs]; simpl; [lra|].
  split.
  - apply np_mean_nonneg. eapply Forall_impl; [|exact H]. intros u Hu; simpl; lra.
  - unfold list_max, list_min.
    pose proof (fold_left_Rmin_le vs v). pose proof (fold_left_Rmax_ge vs v). lra.
Qed.

Lemma f0_values_pos pitch (d : spec_float) f0s :
  f0_values_of pitch d = Ok f0s -> Forall (fun u => 0 < u) f0s.
Proof.
  destruct pitch as [p|]; cbn [f0_values_of]; intros H.
  - destruct (arange_times d) as [ts|]; [|discriminate]. cbn [bind] in H.
    exact (collect_positive_pos p ts f0s H).
  - injection H as <-. constructor.
Qed.

Lemma compute_mfcc_length (lib : Lib) (x : list R) (fs : Z) (k : nat) :
  length (compute_mfcc lib x fs k) = k.
Proof.
  unfold compute_mfcc. destruct (np_fft lib x); cbn [try_except bind].
  - rewrite length_map, length_seq. reflexivity.
  - apply repeat_length.
Qed.

Lemma compute_mfcc_nonneg_aux (lib : Lib) (x : list R) (fs : Z) (k : nat) :
  Forall (fun c => 0 <= c) (compute_mfcc lib x fs k).
Proof.
  unfold compute_mfcc. destruct (np_fft lib x) as [fft|e]; cbn [try_except bind].
  - apply Forall_forall. intros c Hc. apply in_map_iff in Hc.
    destruct Hc as (i & <- & _). unfold band_coeff.
    destruct (_ <? _)%nat; [|lra].
    apply np_mean_nonneg, Forall_slice. unfold half_magnitude.
    apply Forall_forall. intros v Hv. apply in_map_iff in Hv.
    destruct Hv as (z & <- & _). apply sqrt_pos.
  - apply Forall_forall. intros c Hc. apply repeat_spec in Hc. lra.
Qed.

Lemma basic_bounds_aux (lib : Lib) (x : list R) (fs : Z) (b : basic_feats) :
  Forall (fun v => -1 <= v <= 1) x ->
  compute_basic_features lib x fs = Ok b ->
  0 <= rms b <= 1 /\ 0 <= zcr b <= 1.
Proof.
  intros Hx H. unfold compute_basic_features in H. cbv zeta in H.
  destruct (length x =? 0)%nat eqn:Hl.
  - injection H as <-. simpl. lra.
  - destruct (periodogram lib x fs) as [fp|e]; [|discriminate].
    cbn [bind] in H. injection H as <-. cbn [rms zcr].
    apply Nat.eqb_neq in Hl. split.
    + replace (0 <? length x)%nat with true by (symmetry; apply Nat.ltb_lt; lia).
      assert (Hm : 0 <= np_mean (map (fun v => v * v) x) <= 1).
      { split.
        - apply np_mean_nonneg, Forall_map. eapply Forall_impl; [|exact Hx].
          intros v Hv. simpl. nra.
        - apply np_mean_le_const.
          + destruct x; [contradiction|discriminate].
          + apply Forall_map. eapply Forall_impl; [|exact Hx].
            intros v Hv. simpl. nra. }
      split; [apply sqrt_pos|]. rewrite <- sqrt_1. apply sqrt_le_1; lra.
    + destruct (1 <? length x)%nat eqn:H1; [|lra].
      apply Nat.ltb_lt in H1. pose proof (count_sign_changes_le x) as Hc.
      apply ratio_bounds.
      * apply lt_0_INR. lia.
      * apply le_INR in Hc. pose proof (pos_INR (count_sign_changes x)). lra.
Qed.

Lemma scipy_periodogram_freqs (x : list R) (fs : Z) :
  fs <> 0%Z ->
  exists psd, scipy_periodogram x fs =
    Ok (map (fun m => INR m * IZR fs / INR (length x)) (seq 0 (length x / 2 + 1)), psd) /\
    length psd = (length x / 2 + 1)%nat.
Proof.
  intros Hfs. unfold scipy_periodogram.
  replace (fs =? 0)%Z with false by (symmetry; apply Z.eqb_neq; exact Hfs).
  eexists. split; [reflexivity|].
  rewrite length_map, length_seq. reflexivity.
Qed.

Lemma bin_frequency_bounds (m n : nat) (fs : R) :
  (0 < n)%nat -> (m < n / 2 + 1)%nat -> 0 <= fs ->
  0 <= INR m * fs / INR n <= fs / 2.
Proof.
  intros Hn Hm Hfs.
  assert (H2m : (2 * m <= n)%nat).
  { pose proof (Nat.Div0.mul_div_le n 2). lia. }
  apply le_INR in H2m. rewrite mult_INR in H2m. simpl in H2m.
  assert (HnR : 0 < INR n) by (apply lt_0_INR; exact Hn).
  pose proof (pos_INR m).
  split.
  - unfold Rdiv. apply Rmult_le_pos; [apply Rmult_le_pos; lra|].
    left. apply Rinv_0_lt_compat. exact HnR.
  - assert (E : fs / 2 - INR m * fs / INR n = fs * (INR n - 2 * INR m) / (2 * INR n))
      by (field; lra).
    assert (0 <= fs * (INR n - 2 * INR m) / (2 * INR n)).
    { unfold Rdiv. apply Rmult_le_pos; [apply Rmult_le_pos; lra|].
      left. apply Rinv_0_lt_compat. lra. }
    lra.
Qed.

Lemma basic_numpy_aux (x : list R) (fs : Z) :
  x <> [] -> (0 < fs)%Z ->
  exists b, compute_basic_features numpy_scipy x fs = Ok b /\
    0 <= spectralCentroid b <= IZR fs / 2 /\ 0 < spectralFlatness b.
Proof.
  intros Hne Hfs0.
  assert (Hfs : 0 <= IZR fs) by (apply IZR_le; lia).
  assert (Hn : (0 < length x)%nat) by (destruct x; [contradiction|simpl; lia]).
  destruct (scipy_periodogram_freqs x fs ltac:(lia)) as (psd0 & Hpg & Hlen).
  assert (Hne0 : psd0 <> []) by (intros ->; simpl in Hlen; lia).
  destruct (floored_psd_mean_pos psd0 Hne0) as [Hsum Hmean].
  unfold compute_basic_features. cbv zeta.
  replace (length x =? 0)%nat with false by (symmetry; apply Nat.eqb_neq; lia).
  cbn [periodogram numpy_scipy]. rewrite Hpg. cbn [bind fst snd].
  set (freqs := map (fun m => INR m * IZR fs / INR (length x)) (seq 0 (length x / 2 + 1))).
  set (psd := map (Rmax psd_floor) psd0) in *.
  assert (Hlp : length psd = (length x / 2 + 1)%nat) by (unfold psd; rewrite length_map; exact Hlen).
  replace (0 <? length psd)%nat with true by (symmetry; apply Nat.ltb_lt; lia).
  destruct (Rgt_dec (np_sum psd) 0) as [_|Hng]; [|lra].
  destruct (Rgt_dec (np_mean psd) 0) as [_|Hng]; [|lra].
  eexists. split; [reflexivity|]. cbn [spectralCentroid spectralFlatness].
  split.
  - apply ratio_bounds; [exact Hsum|].
    apply weighted_sum_bounds.
    + unfold freqs. rewrite length_map, length_seq. symmetry. exact Hlp.
    + unfold freqs. apply Forall_map, Forall_forall. intros m Hm.
      apply in_seq in Hm. apply bin_frequency_bounds; [exact Hn|lia|exact Hfs].
    + unfold psd. apply Forall_map, Forall_forall. intros u _.
      pose proof psd_floor_pos. pose proof (Rmax_l psd_floor u). lra.
  - apply Rdiv_lt_0_compat; [apply exp_pos|exact Hmean].
Qed.

Lemma band_coeff_empty_magnitude (k start len : nat) :
  map (band_coeff [] k) (seq start len) = repeat 0 len.
Proof.
  revert start; induction len as [|len IH]; intros start; [reflexivity|].
  simpl. rewrite IH. f_equal.
  unfold band_coeff, band_start, band_end. simpl length.
  rewrite !Nat.mul_0_r, !Nat.Div0.div_0_l. reflexivity.
Qed.

Lemma praat_features_nonneg_aux (pm : Praat) (x : list R) (fs : Z) :
  let r := extract_praat_features pm x fs in
  0 <= f0_mean r /\ 0 <= f0_range r /\ 0 <= f1 r /\ 0 <= f2 r /\
  0 <= speech_rate r.
Proof.
  intros r. unfold r, extract_praat_features.
  destruct (praat_body pm x fs) as [pf|e] eqn:Hb; cbn [try_except].
  2: { simpl. lra. }
  destruct (praat_body_ok_inv pm x fs pf Hb)
    as (d & pitch & f0s & formant & [l1 l2] & _ & _ & Hf0 & _ & Hfm & ->).
  cbn [f0_mean f0_range f1 f2 speech_rate fst snd].
  pose proof (f0_stats_nonneg f0s (f0_values_pos _ _ _ Hf0)) as [Hm Hr].
  assert (Hl : Forall (fun u => 0 < u) l1 /\ Forall (fun u => 0 < u) l2).
  { destruct formant as [f|]; cbn [formant_values_of] in Hfm.
    - destruct (arange_times d) as [ts|]; [|discriminate]. cbn [bind] in Hfm.
      exact (collect_formants_pos f ts l1 l2 Hfm).
    - injection Hfm as <- <-. split; constructor. }
  destruct Hl as [Hl1 Hl2].
  split; [exact Hm|]. split; [exact Hr|].
  split; [exact (pos_list_mean_nonneg _ Hl1)|].
  split; [exact (pos_list_mean_nonneg _ Hl2)|].
  destruct (speech_rate_of_cases (length f0s) (sf_value d)); lra.
Qed.

Lemma praat_log_length (pm : Praat) (x : list R) (fs : Z) :
  (length (praat_log pm x fs) <= 1)%nat.
Proof.
  unfold praat_log.
  destruct (praat_body pm x fs); [|simpl; lia].
  destruct (pm_to_point_process pm x fs) as [[pp|]|e]; simpl; try lia.
  destruct (pp_number_of_points pp); simpl; lia.
Qed.

Lemma praat_log_shape (pm : Praat) (x : list R) (fs : Z) :
  praat_log pm x fs = [] \/ (exists e, praat_log pm x fs = [LogPraatError e]) \/
  (exists e, praat_log pm x fs = [LogJitterWarning e]).
Proof.
  unfold praat_log.
  destruct (praat_body pm x fs); [|right; left; eexists; reflexivity].
  destruct (pm_to_point_process pm x fs) as [[pp|]|e].
  - destruct (pp_number_of_points pp); [left; reflexivity|].
    right; right; eexists; reflexivity.
  - left; reflexivity.
  - right; right; eexists; reflexivity.
Qed.

Lemma basic_numpy_total (x : list R) :
  exists b, compute_basic_features numpy_scipy x 16000 = Ok b /\
    0 <= spectralCentroid b <= 8000 /\ 0 <= spectralFlatness b.
Proof.
  destruct x as [|a x'].
  - exists basic_zero. split; [reflexivity|]. simpl. lra.
  - destruct (basic_numpy_aux (a :: x') 16000 ltac:(discriminate) ltac:(lia))
      as (b & Hb & Hc & Hf).
    exists b. split; [exact Hb|]. lra.
Qed.

(** ** Basic features *)

(** X: for samples in [-1, 1] (as the route's decoded PCM always is),
    whenever [compute_basic_features] returns, with any numerical backend,
    rms and zcr both lie in [0, 1]. *)
Theorem basic_features_rms_zcr_bounds (lib : Lib) (x : list R) (fs : Z)
  (b : basic_feats) :
  Forall (fun v => -1 <= v <= 1) x ->
  compute_basic_features lib x fs = Ok b ->
  0 <= rms b <= 1 /\ 0 <= zcr b <= 1.
Proof. exact (basic_bounds_aux lib x fs b). Qed.

Lemma basic_features_rms_zcr_bounds_witness :
  exists b, compute_basic_features numpy_scipy [1 / 2; - (1 / 2)] 16000 = Ok b /\
    0 <= rms b <= 1 /\ 0 <= zcr b <= 1.
Proof.
  eexists. split; [reflexivity|].
  apply (basic_features_rms_zcr_bounds numpy_scipy [1 / 2; - (1 / 2)] 16000).
  - repeat (apply Forall_cons; [lra|]). apply Forall_nil.
  - reflexivity.
Defined.

(** X: with numpy/scipy, on a non-empty clip and a positive sample rate,
    [compute_basic_features] succeeds, its spectral centroid lies between 0
    and the Nyquist frequency [sample_rate / 2], and its spectral flatness
    is positive. *)
Theorem basic_features_spectral_bounds (x : list R) (fs : Z) :
  x <> [] -> (0 < fs)%Z ->
  exists b, compute_basic_features numpy_scipy x fs = Ok b /\
    0 <= spectralCentroid b <= IZR fs / 2 /\ 0 < spectralFlatness b.
Proof. exact (basic_numpy_aux x fs). Qed.

Lemma basic_features_spectral_bounds_witness :
  exists b, compute_basic_features numpy_scipy [1 / 2; - (1 / 2)] 16000 = Ok b /\
    0 <= spectralCentroid b <= IZR 16000 / 2 /\ 0 < spectralFlatness b.
Proof.
  exact (basic_features_spectral_bounds [1 / 2; - (1 / 2)] 16000
           ltac:(discriminate) ltac:(lia)).
Defined.

(** ** MFCC approximation *)

(** X: every coefficient returned by [compute_mfcc] is non-negative, for
    any numerical backend and any number of coefficients (band means of
    FFT magnitudes, 0 for an empty band, 0 in the fallback). *)
Theorem compute_mfcc_nonneg (lib : Lib) (x : list R) (fs : Z) (k : nat) :
  Forall (fun c => 0 <= c) (compute_mfcc lib x fs k).
Proof. exact (compute_mfcc_nonneg_aux lib x fs k). Qed.

(** X: with numpy, a clip of fewer than two samples gives all-zero
    coefficients: [np.fft.fft] raises on an empty array, and a one-sample
    FFT has an empty lower half, so every band is empty. *)
Theorem compute_mfcc_short_clip_zero (x : list R) (fs : Z) (k : nat) :
  (length x < 2)%nat -> compute_mfcc numpy_scipy x fs k = repeat 0 k.
Proof.
  intros Hx. destruct x as [|a [|b l]].
  - reflexivity.
  - unfold compute_mfcc. cbn [np_fft numpy_scipy numpy_fft try_except bind].
    assert (Hm : half_magnitude (dft_bins [a] (length [a])) = []) by reflexivity.
    rewrite Hm. apply band_coeff_empty_magnitude.
  - simpl in Hx. lia.
Qed.

Lemma compute_mfcc_short_clip_zero_witness :
  compute_mfcc numpy_scipy [1 / 2] 16000 13 = repeat 0 13.
Proof. exact (compute_mfcc_short_clip_zero [1 / 2] 16000 13 ltac:(simpl; lia)). Defined.

(** ** Praat features *)

(** X: whatever parselmouth answers or raises, [extract_praat_features]
    never returns a negative f0_mean, f0_range, f1, f2 or speech_rate
    (only values [> 0] are collected; the range is max - min). *)
Theorem praat_features_nonneg (pm : Praat) (x : list R) (fs : Z) :
  let r := extract_praat_features pm x fs in
  0 <= f0_mean r /\ 0 <= f0_range r /\ 0 <= f1 r /\ 0 <= f2 r /\
  0 <= speech_rate r.
Proof. exact (praat_features_nonneg_aux pm x fs). Qed.

(** X: the pulse stage yields a jitter/shimmer pair other than (0, 0) only
    if "To PointProcess (periodic, cc)" returns a truthy point process whose
    "Get number of points" answers at least 2. *)
Theorem jitter_shimmer_requires_pulses (pm : Praat) (x : list R) (fs : Z)
  (duration : R) :
  jitter_shimmer pm x fs duration <> (0, 0) ->
  exists pp n, pm_to_point_process pm x fs = Ok (Some pp) /\
    pp_number_of_points pp = Ok n /\ (2 <= n)%nat.
Proof.
  unfold jitter_shimmer. intros H.
  destruct (pm_to_point_process pm x fs) as [[pp|]|e]; simpl in H;
    try (contradiction H; reflexivity).
  destruct (pp_number_of_points pp) as [n|e] eqn:Hn; simpl in H;
    [|contradiction H; reflexivity].
  destruct (1 <? n)%nat eqn:Hlt; [|contradiction H; reflexivity].
  apply Nat.ltb_lt in Hlt.
  exists pp, n. split; [reflexivity|]. split; [exact Hn|lia].
Qed.

Lemma jitter_shimmer_requires_pulses_witness :
  exists pp n, pm_to_point_process praat_pulses_only [] 16000 = Ok (Some pp) /\
    pp_number_of_points pp = Ok n /\ (2 <= n)%nat.
Proof.
  apply (jitter_shimmer_requires_pulses praat_pulses_only [] 16000 1).
  assert (Hj : jitter_shimmer praat_pulses_only [] 16000 1 =
               (1 / 100 * 100, 2 / 100 * 100)) by reflexivity.
  rewrite Hj. intros H. injection H as H1 _. lra.
Defined.

(** X: when at least two pulses are found, a failing jitter query does
    not affect shimmer: jitter falls back to 0 and shimmer is the local
    shimmer times 100. *)
Theorem jitter_failure_keeps_shimmer (pm : Praat) (x : list R) (fs : Z)
  (duration : R) (pp : PointProcess) (n : nat) (e : exn) (s : R) :
  pm_to_point_process pm x fs = Ok (Some pp) ->
  pp_number_of_points pp = Ok n -> (2 <= n)%nat ->
  pp_jitter_local pp duration = Raise e ->
  pp_shimmer_local pp duration = Ok s ->
  jitter_shimmer pm x fs duration = (0, s * 100).
Proof.
  intros Hpp Hn H2 Hj Hs. unfold jitter_shimmer. rewrite Hpp. cbn [bind].
  rewrite Hn. cbn [bind].
  replace (1 <? n)%nat with true by (symmetry; apply Nat.ltb_lt; lia).
  rewrite Hj, Hs. reflexivity.
Qed.

Lemma jitter_failure_keeps_shimmer_witness :
  jitter_shimmer praat_jitter_fails [] 16000 1 = (0, 2 / 100 * 100).
Proof.
  exact (jitter_failure_keeps_shimmer praat_jitter_fails [] 16000 1 _ 3 PraatError
           (2 / 100) eq_refl eq_refl ltac:(lia) eq_refl eq_refl).
Defined.

(** ** The route *)

(** X: the route only appends to standard output, never rewriting what was
    printed before: nothing for a 400 answer, the single error entry for a
    500 answer, and for a 200 answer the printed feature summary of the
    returned record, preceded by at most one entry: the Praat error of the
    outer handler or the jitter/shimmer warning of the inner one. *)
Theorem extract_features_stdout_append (lib : Lib) (pm : Praat) (w : world)
  (file : option (list Byte.byte)) :
  let res := extract_features lib pm w file in
  exists out, stdout (fst res) = stdout w ++ out /\ (length out <= 2)%nat /\
    (forall msg, snd res = Resp400 msg -> out = []) /\
    (forall e, snd res = Resp500 e -> out = [LogRouteError e]) /\
    (forall r, snd res = Resp200 r ->
       exists pre n,
         out = pre ++ [LogFeatures (fr_basic r) (fr_mfcc r) (fr_praat r) n] /\
         (pre = [] \/ (exists e, pre = [LogPraatError e]) \/
          (exists e, pre = [LogJitterWarning e]))).
Proof.
  intros res. unfold res, extract_features.
  destruct file as [[|d data]|].
  - exists []. simpl. rewrite app_nil_r.
    repeat split; intros; auto; discriminate.
  - destruct (extract_features_body lib pm (d :: data)) as [[r out]|e] eqn:Hb.
    + exists out. cbn [fst snd stdout print]. split; [reflexivity|].
      unfold extract_features_body in Hb.
      destruct (frombuffer_int16 _) as [ints|]; [|discriminate]. cbn [bind] in Hb.
      destruct (compute_basic_features _ _ _) as [bf|]; [|discriminate].
      cbn [bind] in Hb. injection Hb as <- <-.
      split.
      { rewrite length_app. simpl.
        pose proof (praat_log_length pm (map (fun s => IZR s / 32768) ints) 16000).
        lia. }
      split; [intros; discriminate|]. split; [intros; discriminate|].
      intros r' Hr. injection Hr as <-. cbn [fr_basic fr_mfcc fr_praat].
      eexists; eexists. split; [reflexivity|].
      apply praat_log_shape.
    + exists [LogRouteError e]. simpl. split; [reflexivity|].
      split; [lia|]. split; [intros; discriminate|].
      split; [|intros; discriminate].
      intros e' He. injection He as ->. reflexivity.
  - exists []. simpl. rewrite app_nil_r.
    repeat split; intros; auto; discriminate.
Qed.

(** X: with numpy/scipy, a non-empty upload whose payload after the 44-byte
    header has an even length is always answered 200: the record has 13
    non-negative MFCCs, rms and zcr in [0, 1], a spectral centroid in
    [0, 8000] (the Nyquist frequency at 16 kHz), a non-negative flatness,
    and the Praat features of the decoded samples, whose f0_mean,
    f0_range, f1, f2 and speech_rate are non-negative. *)
Theorem extract_features_even_payload_ok (pm : Praat) (w : world)
  (data : list Byte.byte) :
  data <> [] ->
  Nat.even (length (skipn header_size data)) = true ->
  exists ints r,
    frombuffer_int16 (skipn header_size data) = Ok ints /\
    snd (extract_features numpy_scipy pm w (Some data)) = Resp200 r /\
    length (fr_mfcc r) = 13%nat /\ Forall (fun c => 0 <= c) (fr_mfcc r) /\
    0 <= rms (fr_basic r) <= 1 /\ 0 <= zcr (fr_basic r) <= 1 /\
    0 <= spectralCentroid (fr_basic r) <= 8000 /\
    0 <= spectralFlatness (fr_basic r) /\
    fr_praat r = extract_praat_features pm (decode_samples ints) 16000 /\
    0 <= f0_mean (fr_praat r) /\ 0 <= f0_range (fr_praat r) /\ 0 <= f1 (fr_praat r) /\
    0 <= f2 (fr_praat r) /\ 0 <= speech_rate (fr_praat r).
Proof.
  intros Hne Hev.
  destruct (frombuffer_int16_even_decode _ Hev) as (ints & Hdec & _ & Hsmp).
  destruct (basic_numpy_total (decode_samples ints)) as (b & Hb & Hc & Hf).
  assert (Hsmp' : Forall (fun v => -1 <= v <= 1) (decode_samples ints))
    by (eapply Forall_impl; [|exact Hsmp]; intros v Hv; simpl; lra).
  destruct (basic_bounds_aux numpy_scipy _ 16000 b Hsmp' Hb) as [Hrms Hzcr].
  pose proof (praat_features_nonneg_aux pm (decode_samples ints) 16000)
    as (Hm & Hrg & H1 & H2 & Hsr).
  destruct data as [|d data']; [contradiction|].
  exists ints.
  eexists. split; [exact Hdec|]. split.
  { unfold extract_features, extract_features_body. cbv zeta.
    rewrite Hdec. cbn [bind].
    change (map (fun s => IZR s / 32768) ints) with (decode_samples ints).
    rewrite Hb. cbn [bind]. reflexivity. }
  cbn [fr_mfcc fr_basic fr_praat].
  split; [apply compute_mfcc_length|].
  split; [apply compute_mfcc_nonneg_aux|].
  repeat split; try lra; try assumption; reflexivity.
Qed.

Lemma extract_features_even_payload_ok_witness :
  exists ints r,
    frombuffer_int16 (skipn header_size (repeat Byte.x00 44 ++ [Byte.x01; Byte.x80])) = Ok ints /\
    snd (extract_features numpy_scipy praat_voiced_100 empty_world
           (Some (repeat Byte.x00 44 ++ [Byte.x01; Byte.x80]))) = Resp200 r /\
    length (fr_mfcc r) = 13%nat /\ Forall (fun c => 0 <= c) (fr_mfcc r) /\
    0 <= rms (fr_basic r) <= 1 /\ 0 <= zcr (fr_basic r) <= 1 /\
    0 <= spectralCentroid (fr_basic r) <= 8000 /\
    0 <= spectralFlatness (fr_basic r) /\
    fr_praat r = extract_praat_features praat_voiced_100 (decode_samples ints) 16000 /\
    0 <= f0_mean (fr_praat r) /\ 0 <= f0_range (fr_praat r) /\ 0 <= f1 (fr_praat r) /\
    0 <= f2 (fr_praat r) /\ 0 <= speech_rate (fr_praat r).
Proof.
  exact (extract_features_even_payload_ok praat_voiced_100 empty_world
           (repeat Byte.x00 44 ++ [Byte.x01; Byte.x80])
           ltac:(discriminate) eq_refl).
Defined.

(** ** The Stream Chat routes *)

Open Scope string_scope.

Lemma py_getitem_str_ok (data v : json) (k : string) :
  py_getitem_str data k = POk v ->
  exists kv, data = JObj kv /\ dict_lookup k kv = Some v.
Proof.
  destruct data as [| | | | |kv]; simpl; try discriminate.
  destruct (dict_lookup k kv) as [v'|] eqn:E; intros H; [|discriminate].
  injection H as <-. exists kv. split; [reflexivity|exact E].
Qed.

Lemma py_get_ok (data v d : json) (k : string) :
  py_get data k d = POk v ->
  exists kv, data = JObj kv /\
    v = match dict_lookup k kv with Some x => x | None => d end.
Proof.
  destruct data as [| | | | |kv]; simpl; try discriminate.
  intros H. exists kv. split; [reflexivity|].
  destruct (dict_lookup k kv); injection H as <-; reflexivity.
Qed.

Lemma py_get_error_not_exists (data d : json) (k : string) (e : chat_exn) :
  py_get data k d = PRaise e -> str_contains "already exists" (lower (exn_str e)) = false.
Proof.
  destruct data as [| | | | |kv]; cbn [py_get]; intros H;
    try (injection H as <-; reflexivity).
  destruct (dict_lookup k kv); discriminate.
Qed.

Lemma channel_handler_cases (cr : json -> string) (data : option json) (e : chat_exn) :
  (str_contains "already exists" (lower (exn_str e)) = false /\
   channel_handler cr data e =
     ([], POk {| status := 500; body := error_body (exn_str e) |})) \/
  (str_contains "already exists" (lower (exn_str e)) = true /\
   match data with
   | None => exists e', channel_handler cr data e = ([], PRaise e')
   | Some d =>
       forall kv, d = JObj kv ->
       channel_handler cr data e =
         ([], POk {| status := 200;
                     body := JObj [("channelId", JStr (channel_name cr
                                      (match dict_lookup "teacherId" kv with Some v => v | None => JNull end)
                                      (match dict_lookup "studentId" kv with Some v => v | None => JNull end)));
                                   ("success", JBool true); ("existed", JBool true)] |})
   end).
Proof.
  unfold channel_handler.
  destruct (str_contains "already exists" (lower (exn_str e))) eqn:Hc.
  - right. split; [reflexivity|]. destruct data as [d|].
    + intros kv ->. cbn [py_get].
      destruct (dict_lookup "teacherId" kv); destruct (dict_lookup "studentId" kv);
        reflexivity.
    + eexists. reflexivity.
  - left. split; reflexivity.
Qed.

Ltac route_step :=
  cbn [mbind lift call ret try_catch negb orb fst snd app status] in *.

Ltac route_cases :=
  repeat (route_step;
          match goal with
          | |- context [match ?x with POk _ => _ | PRaise _ => _ end] =>
              let E := fresh "E" in destruct x eqn:E
          | |- context [if ?b then _ else _] =>
              let E := fresh "E" in destruct b eqn:E
          end).

Ltac handler_case cr kv e Hr :=
  let H := fresh "H" in
  let Hc := fresh "Hc" in
  destruct (channel_handler_cases cr (Some (JObj kv)) e) as [[_ H]|[Hc H]];
  [rewrite H in Hr; route_step; injection Hr as <-; discriminate
  | specialize (H kv eq_refl); rewrite H in Hr; route_step; injection Hr as <-].

Ltac handler_ok cr kv e Hr :=
  let H := fresh "H" in
  let Hc := fresh "Hc" in
  destruct (channel_handler_cases cr (Some (JObj kv)) e) as [[_ H]|[Hc H]];
  [|specialize (H kv eq_refl)]; rewrite H in Hr; route_step; discriminate.

(** X: [/stream-chat-token] never lets an exception escape: every request,
    including a malformed JSON body, is answered 200, 400 or 500. *)
Theorem generate_stream_token_always_answers (cr : json -> string) (st : Stream)
  (req : py_result json) :
  exists r, snd (generate_stream_token cr st req) = POk r /\
    (status r = 200 \/ status r = 400 \/ status r = 500)%Z.
Proof.
  unfold generate_stream_token. route_cases;
    eexists; (split; [reflexivity|]); cbn; lia.
Qed.

(** X: a falsy JSON body, or one for which ["userId" in data] is false
    (an object without that member, a list without that string, a string
    not containing it), is answered 400 "userId is required" without any
    Stream call. *)
Theorem generate_stream_token_missing_user (cr : json -> string) (st : Stream)
  (data : json) :
  truthy data = false \/ py_in_str "userId" data = POk false ->
  generate_stream_token cr st (POk data) =
    ([], POk {| status := 400; body := error_body "userId is required" |}).
Proof.
  intros [H|H]; unfold generate_stream_token; route_step.
  - rewrite H. reflexivity.
  - destruct (truthy data); [|reflexivity]. route_step. rewrite H. reflexivity.
Qed.

Lemma generate_stream_token_missing_user_witness :
  generate_stream_token empty_repr stream_ok (POk (JObj [("userName", JStr "Ana")])) =
    ([], POk {| status := 400; body := error_body "userId is required" |}).
Proof.
  exact (generate_stream_token_missing_user empty_repr stream_ok
           (JObj [("userName", JStr "Ana")]) (or_intror eq_refl)).
Defined.

(** X: a JSON body that is not an object never obtains a token: no Stream
    call is made and the answer is 400 or 500. *)
Theorem generate_stream_token_non_object (cr : json -> string) (st : Stream)
  (data : json) :
  (forall kv, data <> JObj kv) ->
  fst (generate_stream_token cr st (POk data)) = [] /\
  exists r, snd (generate_stream_token cr st (POk data)) = POk r /\
    (status r = 400 \/ status r = 500)%Z.
Proof.
  intros Hd.
  assert (Hg : forall v, py_getitem_str data "userId" <> POk v).
  { intros v Hv. destruct (py_getitem_str_ok _ _ _ Hv) as (kv & Hkv & _).
    exact (Hd kv Hkv). }
  unfold generate_stream_token. route_cases;
    try (exfalso; exact (Hg _ eq_refl));
    (split; [reflexivity|]); eexists; (split; [reflexivity|]); cbn; lia.
Qed.

Lemma generate_stream_token_non_object_witness :
  fst (generate_stream_token empty_repr stream_ok (POk (JArr [JStr "userId"]))) = [] /\
  exists r, snd (generate_stream_token empty_repr stream_ok (POk (JArr [JStr "userId"]))) =
    POk r /\ (status r = 400 \/ status r = 500)%Z.
Proof.
  apply (generate_stream_token_non_object empty_repr stream_ok (JArr [JStr "userId"])).
  intros kv H. discriminate H.
Defined.

(** X: a 200 answer of [/stream-chat-token] comes from a JSON object with
    a [userId] member: the route made exactly two Stream calls, updating
    the user (name [userName], default "User <userId>"; role "admin" only
    for the string "9999") and then creating the token, both of which
    succeeded, and the body carries that token, the userId and the
    userName. *)
Theorem generate_stream_token_200 (cr : json -> string) (st : Stream) (data : json)
  (r : chat_response) :
  snd (generate_stream_token cr st (POk data)) = POk r -> status r = 200%Z ->
  exists kv userId token,
    let userName := match dict_lookup "userName" kv with
                    | Some n => n
                    | None => JStr ("User " ++ py_str cr userId)
                    end in
    data = JObj kv /\ dict_lookup "userId" kv = Some userId /\
    fst (generate_stream_token cr st (POk data)) =
      [UpdateUser (token_user userId userName); CreateToken userId] /\
    update_user st (token_user userId userName) = POk tt /\
    create_token st userId = POk token /\
    body r = JObj [("token", JStr token); ("userId", userId); ("userName", userName)].
Proof.
  intros Hr Hs. unfold generate_stream_token in *. cbn [lift mbind] in *.
  destruct (truthy data); cbn [negb] in *; [|cbn in Hr; injection Hr as <-; discriminate].
  destruct (py_in_str "userId" data) as [[|]|e]; cbn [negb mbind try_catch] in *.
  2: { cbn in Hr. injection Hr as <-. discriminate. }
  2: { cbn in Hr. injection Hr as <-. discriminate. }
  destruct (py_getitem_str data "userId") as [uid|e] eqn:Hg; cbn [mbind try_catch] in *.
  2: { cbn in Hr. injection Hr as <-. discriminate. }
  destruct (py_getitem_str_ok _ _ _ Hg) as (kv & -> & Hu).
  cbn [py_get] in *.
  destruct (dict_lookup "userName" kv) as [n|] eqn:Hn;
  [set (name := n) in * | set (name := JStr ("User " ++ py_str cr uid)) in *];
  cbn [mbind call] in *;
  (destruct (update_user st (token_user uid name)) as [[]|e] eqn:Hup;
   cbn [mbind try_catch] in *;
   [|cbn in Hr; injection Hr as <-; discriminate]);
  (destruct (create_token st uid) as [tok|e] eqn:Htok; cbn [mbind try_catch] in *;
   [|cbn in Hr; injection Hr as <-; discriminate]);
  cbn in Hr; injection Hr as <-;
  exists kv, uid, tok; cbn zeta; rewrite Hn;
  repeat split; assumption.
Qed.

Lemma generate_stream_token_200_witness :
  exists kv userId token,
    let userName := match dict_lookup "userName" kv with
                    | Some n => n
                    | None => JStr ("User " ++ py_str empty_repr userId)
                    end in
    JObj [("userId", JStr "9999")] = JObj kv /\ dict_lookup "userId" kv = Some userId /\
    fst (generate_stream_token empty_repr stream_ok (POk (JObj [("userId", JStr "9999")]))) =
      [UpdateUser (token_user userId userName); CreateToken userId] /\
    update_user stream_ok (token_user userId userName) = POk tt /\
    create_token stream_ok userId = POk token /\
    JObj [("token", JStr "token"); ("userId", JStr "9999"); ("userName", JStr "User 9999")] =
      JObj [("token", JStr token); ("userId", userId); ("userName", userName)].
Proof.
  exact (generate_stream_token_200 empty_repr stream_ok (JObj [("userId", JStr "9999")])
           {| status := 200;
              body := JObj [("token", JStr "token"); ("userId", JStr "9999");
                            ("userName", JStr "User 9999")] |}
           eq_refl eq_refl).
Defined.

(** X: when the Stream user update raises, no token is created and the
    answer is 500 with the exception's message. *)
Theorem generate_stream_token_update_failure (cr : json -> string) (st : Stream)
  (kv : list (string * json)) (userId : json) (e : chat_exn) :
  let userName := match dict_lookup "userName" kv with
                  | Some n => n
                  | None => JStr ("User " ++ py_str cr userId)
                  end in
  dict_lookup "userId" kv = Some userId ->
  update_user st (token_user userId userName) = PRaise e ->
  generate_stream_token cr st (POk (JObj kv)) =
    ([UpdateUser (token_user userId userName)],
     POk {| status := 500; body := error_body (exn_str e) |}).
Proof.
  intros userName Hu He. unfold generate_stream_token. route_step.
  assert (Hne : kv <> []) by (intros ->; discriminate).
  replace (truthy (JObj kv)) with true by (destruct kv; [contradiction|reflexivity]).
  route_step. cbn [py_in_str py_getitem_str py_get]. rewrite Hu. route_step.
  replace (match dict_lookup "userName" kv with
           | Some v => POk v
           | None => POk (JStr ("User " ++ py_str cr userId))
           end) with (POk (A := json) userName)
    by (unfold userName; destruct (dict_lookup "userName" kv); reflexivity).
  route_step. rewrite He. reflexivity.
Qed.

Lemma generate_stream_token_update_failure_witness :
  generate_stream_token empty_repr stream_down (POk (JObj [("userId", JInt 9999)])) =
    ([UpdateUser (token_user (JInt 9999) (JStr ("User " ++ py_str empty_repr (JInt 9999))))],
     POk {| status := 500; body := error_body "Connection refused" |}).
Proof.
  exact (generate_stream_token_update_failure empty_repr stream_down
           [("userId", JInt 9999)] (JInt 9999) (StreamAPIError "Connection refused")
           eq_refl eq_refl).
Defined.

(** X: [/stream-chat-channel] answers 400 without any Stream call when the
    body is falsy, or when it is an object whose teacherId or studentId is
    missing or falsy (e.g. 0 or the empty string). *)
Theorem create_stream_channel_bad_request (cr : json -> string) (st : Stream)
  (data : json) :
  truthy data = false \/
  (exists kv, data = JObj kv /\
     (truthy (match dict_lookup "teacherId" kv with Some v => v | None => JNull end) = false \/
      truthy (match dict_lookup "studentId" kv with Some v => v | None => JNull end) = false)) ->
  fst (create_stream_channel cr st (POk data)) = [] /\
  exists r, snd (create_stream_channel cr st (POk data)) = POk r /\ status r = 400%Z.
Proof.
  unfold create_stream_channel, channel_body. intros [H|(kv & -> & H)].
  - rewrite H. route_step. split; [reflexivity|]. eexists; split; reflexivity.
  - destruct (truthy (JObj kv)); route_step; [|split; [reflexivity|]; eexists; split; reflexivity].
    cbn [py_get].
    destruct (dict_lookup "teacherId" kv) as [t|]; destruct (dict_lookup "studentId" kv) as [s|];
      route_step.
    all: destruct H as [H|H]; rewrite H; cbn [negb orb]; rewrite ?orb_true_r;
      route_step; refine (conj eq_refl _); eexists; split; reflexivity.
Qed.

Lemma create_stream_channel_bad_request_witness :
  fst (create_stream_channel empty_repr stream_ok (POk (JObj [("teacherId", JStr "7")]))) = [] /\
  exists r, snd (create_stream_channel empty_repr stream_ok
                   (POk (JObj [("teacherId", JStr "7")]))) = POk r /\ status r = 400%Z.
Proof.
  apply (create_stream_channel_bad_request empty_repr stream_ok (JObj [("teacherId", JStr "7")])).
  right. exists [("teacherId", JStr "7")]. split; [reflexivity|]. right. reflexivity.
Defined.

(** X: a 200 answer of [/stream-chat-channel] comes from a JSON object
    with truthy teacherId t and studentId s, and its channelId is always
    "teacher-<t>-student-<s>". Either the three Stream calls (teacher
    update, student update, channel creation) were made, in this order,
    and each returned without raising, or
    one of them raised an error whose lowercased message contains
    "already exists" and the body also carries existed = true. *)
Theorem create_stream_channel_200 (cr : json -> string) (st : Stream)
  (req : py_result json) (r : chat_response) :
  snd (create_stream_channel cr st req) = POk r -> status r = 200%Z ->
  exists kv t s,
    req = POk (JObj kv) /\
    dict_lookup "teacherId" kv = Some t /\ dict_lookup "studentId" kv = Some s /\
    truthy t = true /\ truthy s = true /\
    ((fst (create_stream_channel cr st req) =
        [UpdateUser (teacher_user cr t); UpdateUser (student_user cr s);
         ChannelCreate "messaging" (channel_name cr t s) (channel_data t s) t] /\
      update_user st (teacher_user cr t) = POk tt /\
      update_user st (student_user cr s) = POk tt /\
      channel_create st "messaging" (channel_name cr t s) (channel_data t s) t = POk tt /\
      body r = JObj [("channelId", JStr (channel_name cr t s)); ("success", JBool true)]) \/
     (exists e, str_contains "already exists" (lower (exn_str e)) = true /\
      In (PRaise e) [update_user st (teacher_user cr t); update_user st (student_user cr s);
                     channel_create st "messaging" (channel_name cr t s) (channel_data t s) t] /\
      body r = JObj [("channelId", JStr (channel_name cr t s)); ("success", JBool true);
                     ("existed", JBool true)])).
Proof.
  intros Hr Hs. destruct req as [data|e].
  2: { exfalso. cbn [create_stream_channel] in Hr.
       destruct (channel_handler_cases cr None e) as [[_ H]|[_ (e' & H)]];
         rewrite H in Hr; cbn in Hr; [injection Hr as <-; discriminate|discriminate]. }
  cbn [create_stream_channel] in *. unfold channel_body in *.
  destruct (truthy data) eqn:Hd; route_step.
  2: { injection Hr as <-. discriminate. }
  destruct (py_get data "teacherId" JNull) as [t|e] eqn:Ht; route_step.
  2: { exfalso. destruct (channel_handler_cases cr (Some data) e) as [[_ H]|[Hc _]].
       - rewrite H in Hr. cbn in Hr. injection Hr as <-. discriminate.
       - rewrite (py_get_error_not_exists _ _ _ _ Ht) in Hc. discriminate. }
  destruct (py_get_ok _ _ _ _ Ht) as (kv & -> & Htv). clear Ht.
  destruct (dict_lookup "teacherId" kv) as [t'|] eqn:Htl; subst t;
    cbn [py_get] in *;
    destruct (dict_lookup "studentId" kv) as [s|] eqn:Hsl; route_step.
  2-4: exfalso; cbn [truthy negb orb] in Hr; rewrite ?orb_true_r in Hr; route_step;
    injection Hr as <-; discriminate.
  destruct (truthy t') eqn:Ht1; destruct (truthy s) eqn:Hs1; route_step.
  2-4: exfalso; injection Hr as <-; discriminate.
  exists kv, t', s.
  do 5 (split; [first [reflexivity | assumption]|]).
  destruct (update_user st (teacher_user cr t')) as [[]|e] eqn:Hu1; route_step.
  2: { handler_case cr kv e Hr.
       right. exists e. split; [exact Hc|]. split; [left; reflexivity|].
       rewrite Htl, Hsl. reflexivity. }
  destruct (update_user st (student_user cr s)) as [[]|e] eqn:Hu2; route_step.
  2: { handler_case cr kv e Hr.
       right. exists e. split; [exact Hc|]. split; [right; left; reflexivity|].
       rewrite Htl, Hsl. reflexivity. }
  destruct (channel_create st "messaging" (channel_name cr t' s) (channel_data t' s) t')
    as [[]|e] eqn:Hu3; route_step.
  2: { handler_case cr kv e Hr.
       right. exists e. split; [exact Hc|]. split; [right; right; left; reflexivity|].
       rewrite Htl, Hsl. reflexivity. }
  injection Hr as <-. left.
  repeat (split; [reflexivity|]). reflexivity.
Qed.

Lemma create_stream_channel_200_witness :
  exists kv t s,
    POk (JObj [("teacherId", JStr "7"); ("studentId", JStr "42")]) = POk (JObj kv) /\
    dict_lookup "teacherId" kv = Some t /\ dict_lookup "studentId" kv = Some s /\
    truthy t = true /\ truthy s = true /\
    ((fst (create_stream_channel empty_repr stream_ok
             (POk (JObj [("teacherId", JStr "7"); ("studentId", JStr "42")]))) =
        [UpdateUser (teacher_user empty_repr t); UpdateUser (student_user empty_repr s);
         ChannelCreate "messaging" (channel_name empty_repr t s) (channel_data t s) t] /\
      update_user stream_ok (teacher_user empty_repr t) = POk tt /\
      update_user stream_ok (student_user empty_repr s) = POk tt /\
      channel_create stream_ok "messaging" (channel_name empty_repr t s)
        (channel_data t s) t = POk tt /\
      JObj [("channelId", JStr "teacher-7-student-42"); ("success", JBool true)] =
        JObj [("channelId", JStr (channel_name empty_repr t s)); ("success", JBool true)]) \/
     (exists e, str_contains "already exists" (lower (exn_str e)) = true /\
      In (PRaise e) [update_user stream_ok (teacher_user empty_repr t);
                     update_user stream_ok (student_user empty_repr s);
                     channel_create stream_ok "messaging" (channel_name empty_repr t s)
                       (channel_data t s) t] /\
      JObj [("channelId", JStr "teacher-7-student-42"); ("success", JBool true)] =
        JObj [("channelId", JStr (channel_name empty_repr t s)); ("success", JBool true);
              ("existed", JBool true)])).
Proof.
  exact (create_stream_channel_200 empty_repr stream_ok
           (POk (JObj [("teacherId", JStr "7"); ("studentId", JStr "42")]))
           {| status := 200;
              body := JObj [("channelId", JStr "teacher-7-student-42");
                            ("success", JBool true)] |}
           eq_refl eq_refl).
Defined.

(** X: [/stream-chat-channel] lets an exception escape (Flask's own 500
    page) exactly when [request.get_json()] raised with a message
    containing "already exists" (case-insensitively): the handler then
    reads the unbound local [data]. Every other request gets a JSON
    answer. *)
Theorem create_stream_channel_escapes (cr : json -> string) (st : Stream)
  (req : py_result json) :
  (exists e', snd (create_stream_channel cr st req) = PRaise e') <->
  (exists e, req = PRaise e /\ str_contains "already exists" (lower (exn_str e)) = true).
Proof.
  split.
  - intros [e' Hr]. destruct req as [data|e].
    2: { exists e. split; [reflexivity|].
         destruct (channel_handler_cases cr None e) as [[_ H]|[Hc _]]; [|exact Hc].
         cbn [create_stream_channel] in Hr. rewrite H in Hr. discriminate. }
    exfalso. cbn [create_stream_channel] in Hr. unfold channel_body in Hr.
    destruct (truthy data) eqn:Hd; route_step; [|discriminate].
    destruct (py_get data "teacherId" JNull) as [t|e] eqn:Ht; route_step.
    2: { destruct (channel_handler_cases cr (Some data) e) as [[_ H]|[Hc _]].
         - rewrite H in Hr. discriminate.
         - rewrite (py_get_error_not_exists _ _ _ _ Ht) in Hc. discriminate. }
    destruct (py_get_ok _ _ _ _ Ht) as (kv & -> & _). clear Ht.
    cbn [py_get] in Hr.
    destruct (dict_lookup "studentId" kv) as [s|]; route_step;
      (destruct (negb (truthy t) || _); route_step; [discriminate|]);
      (destruct (update_user st (teacher_user cr t)) as [[]|e] eqn:Hu1; route_step;
       [|handler_ok cr kv e Hr]);
      (destruct (update_user st (student_user cr _)) as [[]|e] eqn:Hu2; route_step;
       [|handler_ok cr kv e Hr]);
      (destruct (channel_create st _ _ _ _) as [[]|e] eqn:Hu3; route_step;
       [discriminate|handler_ok cr kv e Hr]).
  - intros (e & -> & Hc). cbn [create_stream_channel].
    destruct (channel_handler_cases cr None e) as [[Hc' _]|[_ (e' & H)]].
    + rewrite Hc in Hc'. discriminate.
    + exists e'. rewrite H. reflexivity.
Qed.

Lemma create_stream_channel_escapes_witness :
  exists e', snd (create_stream_channel empty_repr stream_ok
                    (PRaise (BadRequest "400 Bad Request: Channel already exists"))) = PRaise e'.
Proof.
  apply (proj2 (create_stream_channel_escapes empty_repr stream_ok
                  (PRaise (BadRequest "400 Bad Request: Channel already exists")))).
  eexists. split; reflexivity.
Defined.

(** X: an "already exists" error from the teacher's user update is
    answered 200 with existed = true although no channel was created: the
    only Stream call made is that update. *)
Theorem create_stream_channel_existed_without_channel (cr : json -> string)
  (st : Stream) (kv : list (string * json)) (t s : json) (e : chat_exn) :
  dict_lookup "teacherId" kv = Some t -> dict_lookup "studentId" kv = Some s ->
  truthy t = true -> truthy s = true ->
  update_user st (teacher_user cr t) = PRaise e ->
  str_contains "already exists" (lower (exn_str e)) = true ->
  create_stream_channel cr st (POk (JObj kv)) =
    ([UpdateUser (teacher_user cr t)],
     POk {| status := 200;
            body := JObj [("channelId", JStr (channel_name cr t s));
                          ("success", JBool true); ("existed", JBool true)] |}).
Proof.
  intros Htl Hsl Ht Hs He Hc.
  cbn [create_stream_channel]. unfold channel_body.
  assert (Hne : kv <> []) by (intros ->; discriminate).
  replace (truthy (JObj kv)) with true by (destruct kv; [contradiction|reflexivity]).
  route_step. cbn [py_get]. rewrite Htl, Hsl. route_step.
  rewrite Ht, Hs. route_step. rewrite He. route_step.
  destruct (channel_handler_cases cr (Some (JObj kv)) e) as [[Hc' _]|[_ H]].
  - rewrite Hc in Hc'. discriminate.
  - rewrite (H kv eq_refl), Htl, Hsl. reflexivity.
Qed.

Lemma create_stream_channel_existed_without_channel_witness :
  create_stream_channel empty_repr stream_user_exists
    (POk (JObj [("teacherId", JStr "9999"); ("studentId", JStr "42")])) =
    ([UpdateUser (teacher_user empty_repr (JStr "9999"))],
     POk {| status := 200;
            body := JObj [("channelId", JStr "teacher-9999-student-42");
                          ("success", JBool true); ("existed", JBool true)] |}).
Proof.
  exact (create_stream_channel_existed_without_channel empty_repr stream_user_exists
           [("teacherId", JStr "9999"); ("studentId", JStr "42")] (JStr "9999") (JStr "42")
           (StreamAPIError "StreamChat error code 4: UpdateUsers failed: user ALREADY EXISTS")
           eq_refl eq_refl eq_refl eq_refl eq_refl eq_refl).
Defined.

Close Scope string_scope.
